(** * EnergyDashboard: the CSV ingestion pipeline

    A shallow embedding of the two CSV parsers of the repository (the
    Netlify function and the Express route, both in [src/unnamed/part_000])
    together with the theorems that relate them to the written
    specification.

    Conventions.
    - A JavaScript string is the list of its UTF-16 code units ([jstring]).
    - A JavaScript number is [NaN], an infinity, or the exact rational value
      denoted by the decimal literal that was parsed; rounding to binary64
      is not modelled and the sign of zero is not tracked, so a literal
      beyond the binary64 range (1e999) stays a finite value here where the
      code holds Infinity, and one below it (1e-999) stays non-zero.  No
      statement below depends on the value of such a cell.
    - [new Date().toLocaleDateString('it-IT')] is an input of the parsers
      (one argument per evaluation in the source).
    - [fetch] and the schema library are inputs of the HTTP handlers. *)

From Stdlib Require Import String Ascii Bool NArith ZArith QArith Lia List.
From Stdlib Require Import DecimalString.
Import ListNotations.

(* ================================================================== *)
(** * JavaScript string primitives *)
(* ================================================================== *)

Module JS.

Definition char := N.
Definition jstring := list char.

(** A string literal of the source, as code units. *)
Definition lit (s : string) : jstring :=
  map N_of_ascii (list_ascii_of_string s).

Definition dquote : char := 34%N.
Definition comma : char := 44%N.
Definition period : char := 46%N.
Definition newline : char := 10%N.

Definition jstring_eqb (a b : jstring) : bool :=
  if list_eq_dec N.eq_dec a b then true else false.

(** [!s] on a string: only the empty string is falsy. *)
Definition isEmpty (s : jstring) : bool :=
  match s with [] => true | _ :: _ => false end.

(** ECMAScript WhiteSpace and LineTerminator code points: the class [\s]
    of regular expressions, and what [trim] and [parseFloat] strip. *)
Definition isWhiteSpace (c : char) : bool :=
  (existsb (N.eqb c)
     [9; 10; 11; 12; 13; 32; 160; 5760; 8232; 8233; 8239; 8287; 12288; 65279]
   || ((8192 <=? c) && (c <=? 8202)))%N.

(** [\d] *)
Definition isDigit (c : char) : bool := ((48 <=? c) && (c <=? 57))%N.

Fixpoint dropWhile (p : char -> bool) (s : jstring) : jstring :=
  match s with
  | [] => []
  | c :: r => if p c then dropWhile p r else s
  end.

Fixpoint takeWhile (p : char -> bool) (s : jstring) : jstring :=
  match s with
  | [] => []
  | c :: r => if p c then c :: takeWhile p r else []
  end.

Definition trimStart (s : jstring) : jstring := dropWhile isWhiteSpace s.
Definition trimEnd (s : jstring) : jstring :=
  rev (dropWhile isWhiteSpace (rev s)).

(** [s.trim()] *)
Definition trim (s : jstring) : jstring := trimEnd (trimStart s).

(** [s.split('\n')]: the accumulator [cur] holds the piece being read. *)
Fixpoint split_from (s cur : jstring) : list jstring :=
  match s with
  | [] => [cur]
  | c :: r =>
      if (c =? newline)%N then cur :: split_from r []
      else split_from r (cur ++ [c])
  end.

Definition split_newline (s : jstring) : list jstring := split_from s [].

(** [s.replace(/[Q\s]/g, '')], where Q stands for the double quote. *)
Definition removeQuotesAndSpaces (s : jstring) : jstring :=
  filter (fun c => negb ((c =? dquote)%N || isWhiteSpace c)) s.

(** [s.replace(/\s/g, '')] *)
Definition removeSpaces (s : jstring) : jstring :=
  filter (fun c => negb (isWhiteSpace c)) s.

(** [s.replace(/,/g, '.')] *)
Definition replaceAllCommas (s : jstring) : jstring :=
  map (fun c => if (c =? comma)%N then period else c) s.

(** [s.replace(',', '.')]: a string pattern replaces the first match only. *)
Fixpoint replaceFirstComma (s : jstring) : jstring :=
  match s with
  | [] => []
  | c :: r => if (c =? comma)%N then period :: r else c :: replaceFirstComma r
  end.

(** [s.replace(/^Q|Q$/g, '')], Q the double quote: one quote at the start
    and one at the end are removed. *)
Definition stripLeadingQuote (s : jstring) : jstring :=
  match s with
  | c :: r => if (c =? dquote)%N then r else s
  | [] => []
  end.

Definition stripOuterQuotes (s : jstring) : jstring :=
  rev (stripLeadingQuote (rev (stripLeadingQuote s))).

(** [s.includes(t)] *)
Fixpoint startsWith (t s : jstring) : bool :=
  match t, s with
  | [], _ => true
  | _ :: _, [] => false
  | a :: t', b :: s' => (a =? b)%N && startsWith t' s'
  end.

Fixpoint includes (s t : jstring) : bool :=
  startsWith t s ||
  match s with
  | [] => false
  | _ :: r => includes r t
  end.

(** ** Anchored regular expressions

    The patterns of the source are all of the shape [/^...$/] without
    flags; [s.match(re)] is truthy exactly when the whole of [s] is in the
    language of the body, decided here with derivatives. *)

Inductive regex : Type :=
| Never
| Epsilon
| Class (p : char -> bool)
| Cat (r1 r2 : regex)
| Or (r1 r2 : regex).

Fixpoint nullable (r : regex) : bool :=
  match r with
  | Never => false
  | Epsilon => true
  | Class _ => false
  | Cat r1 r2 => nullable r1 && nullable r2
  | Or r1 r2 => nullable r1 || nullable r2
  end.

Fixpoint deriv (r : regex) (c : char) : regex :=
  match r with
  | Never => Never
  | Epsilon => Never
  | Class p => if p c then Epsilon else Never
  | Cat r1 r2 =>
      if nullable r1 then Or (Cat (deriv r1 c) r2) (deriv r2 c)
      else Cat (deriv r1 c) r2
  | Or r1 r2 => Or (deriv r1 c) (deriv r2 c)
  end.

Fixpoint matches (r : regex) (s : jstring) : bool :=
  match s with
  | [] => nullable r
  | c :: s' => matches (deriv r c) s'
  end.

Definition digit : regex := Class isDigit.
Definition slash : regex := Class (N.eqb 47).
(** [\d{1,2}], [\d{2}], [\d{4}] *)
Definition digit_1_2 : regex := Cat digit (Or Epsilon digit).
Definition digit_2 : regex := Cat digit digit.
Definition digit_4 : regex := Cat digit (Cat digit (Cat digit digit)).

(** [/^\d{1,2}\/\d{1,2}\/\d{4}$/] *)
Definition looseDate : regex :=
  Cat digit_1_2 (Cat slash (Cat digit_1_2 (Cat slash digit_4))).

(** [/^\d{2}\/\d{2}\/\d{4}$/] *)
Definition strictDate : regex :=
  Cat digit_2 (Cat slash (Cat digit_2 (Cat slash digit_4))).

End JS.
Import JS.
Arguments lit s%_string.

(* ================================================================== *)
(** * Numbers and [parseFloat] *)
(* ================================================================== *)

Module Number.

Inductive number : Type :=
| NaN
| Infinity (negative : bool)
| Num (value : Q).

Definition isNaN (x : number) : bool :=
  match x with NaN => true | _ => false end.

(** The literal [0] of the source. *)
Definition zero : number := Num 0.

Definition plus_sign : char := 43%N.
Definition minus_sign : char := 45%N.
Definition isExponentIndicator (c : char) : bool :=
  ((c =? 101) || (c =? 69))%N.

Definition digitsValue (ds : jstring) : N :=
  fold_left (fun acc c => (acc * 10 + (c - 48))%N) ds 0%N.

(** SignedInteger: [DecimalDigits], [+ DecimalDigits] or [- DecimalDigits]
    at the head of [s]; [None] when no digit is there. *)
Definition signedInteger (s : jstring) : option Z :=
  let '(negative, ds) :=
    match s with
    | c :: r =>
        if (c =? plus_sign)%N then (false, takeWhile isDigit r)
        else if (c =? minus_sign)%N then (true, takeWhile isDigit r)
        else (false, takeWhile isDigit s)
    | [] => (false, [])
    end in
  if isEmpty ds then None
  else Some (if negative then (- Z.of_N (digitsValue ds))%Z
             else Z.of_N (digitsValue ds)).

(** The value of the optional ExponentPart at the head of [s]: a dangling
    [e] is outside the longest literal prefix and counts for nothing. *)
Definition exponentPart (s : jstring) : Z :=
  match s with
  | c :: r =>
      if isExponentIndicator c then
        match signedInteger r with Some e => e | None => 0%Z end
      else 0%Z
  | [] => 0%Z
  end.

(** The longest prefix of [s] that is a StrUnsignedDecimalLiteral other
    than [Infinity], as its mathematical value. *)
Definition unsignedDecimal (s : jstring) : option Q :=
  let intDigits := takeWhile isDigit s in
  let afterInt := dropWhile isDigit s in
  let hasDot :=
    match afterInt with c :: _ => (c =? period)%N | [] => false end in
  let fracDigits := if hasDot then takeWhile isDigit (tl afterInt) else [] in
  let afterFrac :=
    if hasDot then dropWhile isDigit (tl afterInt) else afterInt in
  if isEmpty intDigits && isEmpty fracDigits then None
  else
    Some (Qred (inject_Z (Z.of_N (digitsValue (intDigits ++ fracDigits)))
                * Qpower (10 # 1)
                    (exponentPart afterFrac - Z.of_nat (length fracDigits)))).

(** [parseFloat(s)]: leading white space is skipped, then the longest
    prefix that is a StrDecimalLiteral is read; [NaN] when there is none. *)
Definition parseFloat (s : jstring) : number :=
  let t := trimStart s in
  let '(negative, u) :=
    match t with
    | c :: r =>
        if (c =? plus_sign)%N then (false, r)
        else if (c =? minus_sign)%N then (true, r)
        else (false, t)
    | [] => (false, t)
    end in
  if startsWith (lit "Infinity") u then Infinity negative
  else
    match unsignedDecimal u with
    | None => NaN
    | Some q => Num (if negative then Qopp q else q)
    end.

End Number.
Import Number.

(* ================================================================== *)
(** * The data model ([src/shared/schema.ts]) *)
(* ================================================================== *)

Record EnergyData : Type := mkEnergyData {
  date : jstring;
  gas : number;
  power : number
}.

Record SheetData : Type := mkSheetData {
  fileDate : jstring;
  data : list EnergyData
}.

(** The scan of [parseCSVLine], shared by both variants: [result],
    [current] and [inQuotes] are the three locals of the loop. *)
Fixpoint scanLine (line : jstring) (result : list jstring)
         (current : jstring) (inQuotes : bool) : list jstring :=
  match line with
  | [] => result ++ [current]
  | char :: rest =>
      if (char =? dquote)%N then scanLine rest result current (negb inQuotes)
      else if (char =? comma)%N && negb inQuotes then
        scanLine rest (result ++ [current]) [] inQuotes
      else scanLine rest result (current ++ [char]) inQuotes
  end.

(* ================================================================== *)
(** * The Netlify function (first file of [part_000]) *)
(* ================================================================== *)

Module Netlify.

Definition parseCSVLine (line : jstring) : list jstring :=
  map stripOuterQuotes (scanLine line [] [] false).

(** The closure [parseNumber] of the data loop. *)
Definition parseNumber (str : jstring) : number :=
  if isEmpty str || jstring_eqb (trim str) [] then zero
  else
    let cleaned := removeSpaces (replaceAllCommas str) in
    let num := parseFloat cleaned in
    if isNaN num then zero else num.

(** One iteration of the data loop: [None] is [continue]. *)
Definition row (line : jstring) : option EnergyData :=
  if isEmpty (trim line) then None
  else
    let columns := parseCSVLine line in
    if (length columns <? 4)%nat || isEmpty (trim (nth 0 columns []))
    then None
    else
      let dateStr := nth 0 columns [] in
      let productionStr := nth 1 columns [] in
      let consumptionStr := nth 2 columns [] in
      let gridStr := nth 3 columns [] in
      Some {| date := trim dateStr;
              gas := parseNumber consumptionStr;
              power := parseNumber productionStr |}.

Fixpoint loop (lines : list jstring) (data : list EnergyData)
  : list EnergyData :=
  match lines with
  | [] => data
  | line :: rest =>
      match row line with
      | None => loop rest data
      | Some r => loop rest (data ++ [r])
      end
  end.

(** [today] is [new Date().toLocaleDateString('it-IT')]. *)
Definition parseCSVData (today : jstring) (csvText : jstring) : SheetData :=
  let lines := split_newline (trim csvText) in
  let fileDate := today in
  let fileDate :=
    if (5 <=? length lines)%nat then
      let row5 := nth 4 lines [] in
      let columns := parseCSVLine row5 in
      if (5 <=? length columns)%nat && negb (isEmpty (nth 4 columns [])) then
        let e5Value := removeQuotesAndSpaces (nth 4 columns []) in
        if matches looseDate e5Value then e5Value else fileDate
      else fileDate
    else fileDate in
  {| fileDate := fileDate; data := loop (skipn 6 lines) [] |}.

End Netlify.

(* ================================================================== *)
(** * The Express route (second file of [part_000]) *)
(* ================================================================== *)

Module Express.

Definition parseCSVLine (line : jstring) : list jstring :=
  scanLine line [] [] false.

Definition parseItalianNumber (str : jstring) : number :=
  if isEmpty str then zero
  else
    let cleaned := removeQuotesAndSpaces str in
    if isEmpty cleaned then zero
    else
      let normalized := replaceFirstComma cleaned in
      let num := parseFloat normalized in
      if isNaN num then zero else num.

(** One iteration of the data loop: [None] is a row that pushes nothing. *)
Definition row (rawLine : jstring) : option EnergyData :=
  let line := trim rawLine in
  if isEmpty line then None
  else
    let columns := parseCSVLine line in
    if (3 <=? length columns)%nat then
      let dateStr := nth 0 columns [] in
      let gasStr := nth 1 columns [] in
      let powerStr := nth 2 columns [] in
      if isEmpty dateStr || negb (matches strictDate dateStr) then None
      else
        let gas := parseItalianNumber gasStr in
        let power := parseItalianNumber powerStr in
        if negb (isNaN gas) && negb (isNaN power) then
          Some {| date := dateStr; gas := gas; power := power |}
        else None
    else None.

Fixpoint loop (lines : list jstring) (data : list EnergyData)
  : list EnergyData :=
  match lines with
  | [] => data
  | line :: rest =>
      match row line with
      | None => loop rest data
      | Some r => loop rest (data ++ [r])
      end
  end.

(** [today] and [today'] are the two evaluations of
    [new Date().toLocaleDateString('it-IT')], in program order. *)
Definition parseCSVData (today today' : jstring) (csvText : jstring)
  : SheetData :=
  let lines := split_newline (trim csvText) in
  let fileDate := today in
  let fileDate :=
    if (5 <=? length lines)%nat then
      let row5 := nth 4 lines [] in
      let columns := parseCSVLine row5 in
      if (5 <=? length columns)%nat && negb (isEmpty (nth 4 columns [])) then
        let e5Value := removeQuotesAndSpaces (nth 4 columns []) in
        if matches looseDate e5Value then e5Value else fileDate
      else fileDate
    else fileDate in
  let fileDate :=
    if jstring_eqb fileDate today' && (2 <=? length lines)%nat then
      let dataRow := nth 1 lines [] in
      let columns := parseCSVLine dataRow in
      if (4 <=? length columns)%nat && negb (isEmpty (nth 3 columns [])) then
        let dataOggiValue := removeQuotesAndSpaces (nth 3 columns []) in
        if matches looseDate dataOggiValue then dataOggiValue else fileDate
      else fileDate
    else fileDate in
  {| fileDate := fileDate; data := loop lines [] |}.

End Express.

(* ================================================================== *)
(** * The HTTP handlers *)
(* ================================================================== *)

Module Http.

(** What a [catch] clause receives: [error instanceof Error] holds for an
    [ErrorObject], which carries its [message]. *)
Inductive Thrown : Type :=
| ErrorObject (message : jstring)
| OtherValue.

Inductive Result (A : Type) : Type :=
| Ok (a : A)
| Throw (error : Thrown).
Arguments Ok {A} a.
Arguments Throw {A} error.

Definition bind {A B : Type} (m : Result A) (k : A -> Result B) : Result B :=
  match m with
  | Ok a => k a
  | Throw e => Throw e
  end.

Notation "x <- m ;; k" := (bind m (fun x => k))
  (at level 61, m at next level, right associativity).

(** The part of a fetch [Response] the handlers read; [text] is the outcome
    of [await response.text()]. *)
Record Response : Type := mkResponse {
  ok : bool;
  status : N;
  statusText : jstring;
  text : Result jstring
}.

(** [JSON.stringify] and [res.json] are kept symbolic: a body is the value
    that is serialised. *)
Inductive Body : Type :=
| EmptyBody
| JsonSheetData (snapshot : SheetData)
| JsonObject (fields : list (jstring * jstring)).

Record Reply : Type := mkReply {
  statusCode : N;
  headers : list (jstring * jstring);
  body : Body
}.

(** [error instanceof Error ? error.message : 'Unknown error'] *)
Definition errorMessage (error : Thrown) : jstring :=
  match error with
  | ErrorObject message => message
  | OtherValue => lit "Unknown error"
  end.

(** A number inside a template string. *)
Definition N_toString (n : N) : jstring :=
  lit (NilZero.string_of_uint (N.to_uint n)).

End Http.
Import Http.

Module NetlifyHandler.

Record HandlerEvent : Type := mkEvent {
  path : jstring;
  httpMethod : jstring
}.

Definition corsHeaders : list (jstring * jstring) :=
  [ (lit "Access-Control-Allow-Origin", lit "*");
    (lit "Access-Control-Allow-Headers", lit "Content-Type");
    (lit "Access-Control-Allow-Methods", lit "GET, POST, PUT, DELETE") ].

Definition jsonHeaders : list (jstring * jstring) :=
  corsHeaders ++ [ (lit "Content-Type", lit "application/json") ].

(** The [try] block of the energy-data branch; [fetched] is the outcome of
    [await fetch(GOOGLE_SHEETS_URL)]. *)
Definition tryBlock (fetched : Result Response) (today : jstring)
  : Result SheetData :=
  response <- fetched ;;
  if negb (ok response) then
    Throw (ErrorObject
             (lit "HTTP error! status: " ++ N_toString (status response)))
  else
    csvText <- text response ;;
    Ok (Netlify.parseCSVData today csvText).

Definition handler (fetched : Result Response) (today : jstring)
           (event : HandlerEvent) : Reply :=
  if jstring_eqb (httpMethod event) (lit "OPTIONS") then
    {| statusCode := 200; headers := corsHeaders; body := EmptyBody |}
  else if includes (path event) (lit "energy-data")
          && jstring_eqb (httpMethod event) (lit "GET") then
    match tryBlock fetched today with
    | Ok parsedData =>
        {| statusCode := 200; headers := jsonHeaders;
           body := JsonSheetData parsedData |}
    | Throw error =>
        {| statusCode := 500; headers := jsonHeaders;
           body := JsonObject
                     [ (lit "error", lit "Failed to fetch energy data");
                       (lit "details", errorMessage error) ] |}
    end
  else
    {| statusCode := 404; headers := corsHeaders;
       body := JsonObject [ (lit "error", lit "Not found") ] |}.

End NetlifyHandler.

Module ExpressRoute.

Section Route.

(** The schema library is not part of the repository: [z_number] says which
    numbers [z.number()] accepts and [z_message] is the message of the
    error [parse] throws.  Strings always pass [z.string()]. *)
Variable z_number : number -> bool.
Variable z_message : SheetData -> jstring.

Definition energyDataSchema (r : EnergyData) : bool :=
  z_number (gas r) && z_number (power r).

(** [sheetDataSchema.parse(parsedData)] *)
Definition sheetDataSchema_parse (parsedData : SheetData)
  : Result SheetData :=
  if forallb energyDataSchema (data parsedData) then Ok parsedData
  else Throw (ErrorObject (z_message parsedData)).

Definition tryBlock (fetched : Result Response) (today today' : jstring)
  : Result SheetData :=
  response <- fetched ;;
  if negb (ok response) then
    Throw (ErrorObject
             (lit "Failed to fetch Google Sheets data: "
              ++ N_toString (status response) ++ lit " "
              ++ statusText response))
  else
    csvText <- text response ;;
    let parsedData := Express.parseCSVData today today' csvText in
    validatedData <- sheetDataSchema_parse parsedData ;;
    Ok validatedData.

(** The callback of [app.get("/api/energy-data", ...)]: what [res] sends. *)
Definition energyDataRoute (fetched : Result Response)
           (today today' : jstring) : Reply :=
  match tryBlock fetched today today' with
  | Ok validatedData =>
      {| statusCode := 200; headers := [];
         body := JsonSheetData validatedData |}
  | Throw error =>
      {| statusCode := 500; headers := [];
         body := JsonObject
                   [ (lit "message",
                      lit "Failed to fetch energy data from Google Sheets");
                     (lit "error", errorMessage error) ] |}
  end.

End Route.

End ExpressRoute.

(* ================================================================== *)
(** * The client: dates for display ([part_004], energy-chart.tsx,
      energy-dashboard.tsx) *)
(* ================================================================== *)

Module Display.

(** [s.split('/')]: the accumulator [cur] holds the piece being read. *)
Fixpoint split_slash_from (s cur : jstring) : list jstring :=
  match s with
  | [] => [cur]
  | c :: r =>
      if (c =? 47)%N then cur :: split_slash_from r []
      else split_slash_from r (cur ++ [c])
  end.

Definition split_slash (s : jstring) : list jstring := split_slash_from s [].

(** A value inside a template string: [undefined] prints as the word. *)
Definition template (x : option jstring) : jstring :=
  match x with
  | Some s => s
  | None => lit "undefined"
  end.

Definition isHexDigit (c : char) : bool :=
  (isDigit c || ((97 <=? c) && (c <=? 102)) || ((65 <=? c) && (c <=? 70)))%N.

Definition hexDigitValue (c : char) : N :=
  (if isDigit c then c - 48
   else if (97 <=? c) && (c <=? 102) then c - 87
   else c - 55)%N.

Definition hexDigitsValue (ds : jstring) : N :=
  fold_left (fun acc c => (acc * 16 + hexDigitValue c)%N) ds 0%N.

(** [parseInt(s)] without a radix: leading white space, a sign, a 0x or 0X
    prefix for base sixteen, then the longest run of digits; [None] is
    NaN.  The integer is exact: the callers only use it to index an array
    of twelve names, which rounding of huge values cannot change. *)
Definition parseIntString (s : jstring) : option Z :=
  let t := trimStart s in
  let '(negative, u) :=
    match t with
    | c :: r =>
        if (c =? minus_sign)%N then (true, r)
        else if (c =? plus_sign)%N then (false, r)
        else (false, t)
    | [] => (false, t)
    end in
  let '(hex, body) :=
    match u with
    | a :: b :: r =>
        if (a =? 48)%N && ((b =? 120)%N || (b =? 88)%N) then (true, r)
        else (false, u)
    | _ => (false, u)
    end in
  let digits := takeWhile (if hex then isHexDigit else isDigit) body in
  if isEmpty digits then None
  else
    let value :=
      Z.of_N (if hex then hexDigitsValue digits else digitsValue digits) in
    Some (if negative then (- value)%Z else value).

(** [parseInt(x)] on a string or [undefined]: the latter is first turned
    into the word undefined, which holds no digit. *)
Definition parseInt (x : option jstring) : option Z :=
  parseIntString (template x).

Definition monthNames : list jstring :=
  [lit "gen"; lit "feb"; lit "mar"; lit "apr"; lit "mag"; lit "giu";
   lit "lug"; lit "ago"; lit "set"; lit "ott"; lit "nov"; lit "dic"].

(** [monthNames[monthIndex]]: [undefined] unless the index is one of
    0..11. *)
Definition monthNameAt (monthIndex : option Z) : option jstring :=
  match monthIndex with
  | Some i => if (0 <=? i)%Z then nth_error monthNames (Z.to_nat i) else None
  | None => None
  end.

(** [formatDateForDisplay] of the filter bar; [formatDateForExport] of the
    dashboard has the same body. *)
Definition formatDateForDisplay (dateStr : jstring) : jstring :=
  let parts := split_slash dateStr in
  let month := nth_error parts 1 in
  let year := nth_error parts 2 in
  let monthIndex := option_map (fun n => (n - 1)%Z) (parseInt month) in
  template (monthNameAt monthIndex) ++ lit " " ++ template year.

Definition formatDateForExport (dateStr : jstring) : jstring :=
  let parts := split_slash dateStr in
  let month := nth_error parts 1 in
  let year := nth_error parts 2 in
  let monthIndex := option_map (fun n => (n - 1)%Z) (parseInt month) in
  template (monthNameAt monthIndex) ++ lit " " ++ template year.

(** [formatDateForSlider] of the dashboard, on a month/year. *)
Definition formatDateForSlider (monthYear : jstring) : jstring :=
  if isEmpty monthYear then []
  else
    let parts := split_slash monthYear in
    let month := nth_error parts 0 in
    let year := nth_error parts 1 in
    let monthIndex := option_map (fun n => (n - 1)%Z) (parseInt month) in
    template (monthNameAt monthIndex) ++ lit " " ++ template year.

(** How a call ends: with a value, or with the TypeError of a method
    called on [undefined]. *)
Inductive Completion (A : Type) : Type :=
| Returns (a : A)
| ThrowsTypeError.
Arguments Returns {A} a.
Arguments ThrowsTypeError {A}.

(** [s.slice(-2)] *)
Definition slice_last_two (s : jstring) : jstring :=
  skipn (length s - 2) s.

(** [formatDateLabel] of the chart. *)
Definition formatDateLabel (dateStr : jstring) : Completion jstring :=
  let parts := split_slash dateStr in
  let month := nth_error parts 1 in
  let year := nth_error parts 2 in
  let monthIndex := option_map (fun n => (n - 1)%Z) (parseInt month) in
  match year with
  | None => ThrowsTypeError
  | Some y =>
      let shortYear := slice_last_two y in
      Returns (template (monthNameAt monthIndex) ++ lit "-" ++ shortYear)
  end.

End Display.

(* ================================================================== *)
(** * The client: the filter bar ([part_004]) *)
(* ================================================================== *)

Module FilterBar.

Inductive Period : Type := consolidato | forecast.
Inductive Commodity : Type := gasType | powerType.

Definition Period_eqb (a b : Period) : bool :=
  match a, b with
  | consolidato, consolidato => true
  | forecast, forecast => true
  | _, _ => false
  end.

(** [FilterOptions] of [shared/schema.ts]; a date that is [undefined] is
    [None]. *)
Record FilterOptions : Type := mkFilterOptions {
  period : list Period;
  type : Commodity;
  startDate : option jstring;
  endDate : option jstring
}.

(** The key and value of a call of [updateFilter]. *)
Inductive FilterUpdate : Type :=
| SetPeriod (value : list Period)
| SetType (value : Commodity)
| SetStartDate (value : jstring)
| SetEndDate (value : jstring).

(** [updateFilter(key, value)]: the filters handed to [onFiltersChange]. *)
Definition updateFilter (filters : FilterOptions) (update : FilterUpdate)
  : FilterOptions :=
  match update with
  | SetPeriod value =>
      {| period := value; type := type filters;
         startDate := Some []; endDate := Some [] |}
  | SetType value =>
      {| period := period filters; type := value;
         startDate := startDate filters; endDate := endDate filters |}
  | SetStartDate value =>
      {| period := period filters; type := type filters;
         startDate := Some value; endDate := endDate filters |}
  | SetEndDate value =>
      {| period := period filters; type := type filters;
         startDate := startDate filters; endDate := Some value |}
  end.

Definition togglePeriod (filters : FilterOptions) (p : Period)
  : FilterOptions :=
  let currentPeriods := period filters in
  let newPeriods :=
    if existsb (Period_eqb p) currentPeriods then
      let removed := filter (fun x => negb (Period_eqb x p)) currentPeriods in
      if (length removed =? 0)%nat then [p] else removed
    else currentPeriods ++ [p] in
  updateFilter filters (SetPeriod newPeriods).

Inductive DateKey : Type := startDateKey | endDateKey.

Definition setDate (key : DateKey) (value : jstring) : FilterUpdate :=
  match key with
  | startDateKey => SetStartDate value
  | endDateKey => SetEndDate value
  end.

(** [a === b] on values that are a string or [undefined]. *)
Definition strictEquals (a b : option jstring) : bool :=
  match a, b with
  | Some x, Some y => jstring_eqb x y
  | None, None => true
  | _, _ => false
  end.

(** The callback of the filter in [handleMonthYearChange]. *)
Definition inMonth (month year : option jstring) (date : jstring) : bool :=
  let parts := Display.split_slash date in
  let dateMonth := nth_error parts 1 in
  let dateYear := nth_error parts 2 in
  strictEquals dateMonth month && strictEquals dateYear year.

(** [handleMonthYearChange(key, monthYear)]: the filters handed to
    [onFiltersChange], [None] when it is not called. *)
Definition handleMonthYearChange (filters : FilterOptions)
           (availableDates : list jstring) (key : DateKey)
           (monthYear : jstring) : option FilterOptions :=
  if isEmpty monthYear then Some (updateFilter filters (setDate key []))
  else
    let parts := Display.split_slash monthYear in
    let month := nth_error parts 0 in
    let year := nth_error parts 1 in
    let datesInMonth := filter (inMonth month year) availableDates in
    if (0 <? length datesInMonth)%nat then
      let selectedDate :=
        match key with
        | startDateKey => nth 0 datesInMonth []
        | endDateKey => nth (length datesInMonth - 1) datesInMonth []
        end in
      Some (updateFilter filters (setDate key selectedDate))
    else None.

End FilterBar.

(* ================================================================== *)
(** * Vocabulary of the statements *)
(* ================================================================== *)

Definition noQuote (s : jstring) : bool :=
  forallb (fun c => negb (c =? dquote)%N) s.

Definition noComma (s : jstring) : bool :=
  forallb (fun c => negb (c =? comma)%N) s.

Definition noNewline (s : jstring) : bool :=
  forallb (fun c => negb (c =? newline)%N) s.

Definition noSlash (s : jstring) : bool :=
  forallb (fun c => negb (c =? 47)%N) s.

(** All of [s] is white space: what the specification calls blank. *)
Definition isBlank (s : jstring) : bool := forallb isWhiteSpace s.

(** A field written between double quotes. *)
Definition quoted (s : jstring) : jstring := dquote :: s ++ [dquote].

(** The value of a number, when it is a finite one. *)
Definition numberIs (x : number) (v : Q) : Prop :=
  match x with
  | Num w => w == v
  | _ => False
  end.

(** The lines the parsers work on: [csvText.trim().split('\n')]. *)
Definition textLines (csvText : jstring) : list jstring :=
  split_newline (trim csvText).

(** Lines joined by newlines: the text [split('\n')] takes apart. *)
Fixpoint joinLines (ls : list jstring) : jstring :=
  match ls with
  | [] => []
  | [l] => l
  | l :: rest => l ++ newline :: joinLines rest
  end.

(** The cell at row [r] and column [c] (both from 0) of the sheet, quotes
    and white space removed; an absent cell reads as the empty string. *)
Definition cell (lines : list jstring) (r c : nat) : jstring :=
  removeQuotesAndSpaces (nth c (Express.parseCSVLine (nth r lines [])) []).

(** The sheet has row [r] and its cell at column [c] is a date
    D{1,2}/D{1,2}/DDDD. *)
Definition validDateCell (lines : list jstring) (r c : nat) : bool :=
  (r <? length lines)%nat && matches looseDate (cell lines r c).

(** The leading field of a line, read as [scanLine] reads it from the state
    [current], [inQuotes]: everything but quotes, up to the first comma
    outside quotes. *)
Fixpoint leadingField (line current : jstring) (inQuotes : bool) : jstring :=
  match line with
  | [] => current
  | char :: rest =>
      if (char =? dquote)%N then leadingField rest current (negb inQuotes)
      else if (char =? comma)%N && negb inQuotes then current
      else leadingField rest (current ++ [char]) inQuotes
  end.

(** What one row contributes to the output. *)
Definition emitted (row : jstring -> option EnergyData) (line : jstring)
  : list EnergyData :=
  match row line with
  | Some r => [r]
  | None => []
  end.

(** The skip rule in the words of the specification, over the fields a
    tokenizer yields: the line is blank, or fewer than three fields are
    there, or the leading field is blank. *)
Definition specSkips (tokenize : jstring -> list jstring) (line : jstring)
  : bool :=
  isBlank line
  || (length (tokenize line) <? 3)%nat
  || isBlank (nth 0 (tokenize line) []).

(** The fifth line of the scenario: cell E5 holds 15/03/2024 in quotes. *)
Definition e5Line : jstring :=
  lit ",,,," ++ quoted (lit "15/03/2024") ++ lit ",,".

(** The eight lines of the scenario; lines 1-4 and 6 are headers the
    specification leaves open, line 7 is the data row, line 8 is blank. *)
Definition scenario (l1 l2 l3 l4 l6 l7 : jstring) : jstring :=
  joinLines [l1; l2; l3; l4; e5Line; l6; l7; lit ",,,"].

(** Fields joined by a separator: [fields.join(sep)]. *)
Fixpoint joinWith (sep : char) (fields : list jstring) : jstring :=
  match fields with
  | [] => []
  | [f] => f
  | f :: rest => f ++ sep :: joinWith sep rest
  end.

(** A date written DD/MM/YYYY, digit by digit. *)
Definition ddmmyyyy (d1 d2 m1 m2 y1 y2 y3 y4 : char) : jstring :=
  [d1; d2; 47%N; m1; m2; 47%N; y1; y2; y3; y4].

(** A regular expression with no word at all. *)
Fixpoint isDead (r : regex) : bool :=
  match r with
  | Never => true
  | Epsilon => false
  | Class _ => false
  | Cat r1 r2 => isDead r1 || isDead r2
  | Or r1 r2 => isDead r1 && isDead r2
  end.

(* ================================================================== *)
(** * Facts about the string primitives *)
(* ================================================================== *)

Lemma isEmpty_false (s : jstring) : isEmpty s = false <-> s <> [].
Proof. destruct s; simpl; split; intros H; congruence. Qed.

Lemma jstring_eqb_eq (a b : jstring) : jstring_eqb a b = true <-> a = b.
Proof.
  unfold jstring_eqb. destruct (list_eq_dec N.eq_dec a b); split; congruence.
Qed.

Lemma jstring_eqb_refl (a : jstring) : jstring_eqb a a = true.
Proof. now apply jstring_eqb_eq. Qed.

Lemma jstring_eqb_neq (a b : jstring) : jstring_eqb a b = false <-> a <> b.
Proof.
  unfold jstring_eqb. destruct (list_eq_dec N.eq_dec a b); split; congruence.
Qed.

Lemma forallb_rev (p : char -> bool) (s : jstring) :
  forallb p (rev s) = forallb p s.
Proof.
  induction s as [|c s IH]; simpl; trivial.
  rewrite forallb_app, IH. simpl. rewrite andb_true_r. apply andb_comm.
Qed.

Lemma dropWhile_all (p : char -> bool) (s : jstring) :
  forallb p s = true -> dropWhile p s = [].
Proof.
  induction s as [|c s IH]; simpl; trivial.
  intros H. apply andb_true_iff in H as [Hc Hs]. now rewrite Hc, IH.
Qed.

Lemma dropWhile_nil_all (p : char -> bool) (s : jstring) :
  dropWhile p s = [] -> forallb p s = true.
Proof.
  induction s as [|c s IH]; simpl; trivial.
  destruct (p c); simpl; [exact IH | discriminate].
Qed.

Lemma dropWhile_idem (p : char -> bool) (s : jstring) :
  dropWhile p (dropWhile p s) = dropWhile p s.
Proof.
  induction s as [|c s IH]; simpl; trivial.
  destruct (p c) eqn:E; trivial. simpl. now rewrite E.
Qed.

Lemma dropWhile_app_stop (p : char -> bool) (s t : jstring) :
  forallb p s = false -> dropWhile p (s ++ t) = dropWhile p s ++ t.
Proof.
  induction s as [|c s IH]; simpl; [discriminate|].
  destruct (p c); simpl; [exact IH | trivial].
Qed.

Lemma dropWhile_forallb (p r : char -> bool) (s : jstring) :
  forallb r s = true -> forallb r (dropWhile p s) = true.
Proof.
  induction s as [|c s IH]; simpl; trivial.
  intros H. destruct (p c); simpl; trivial.
  apply andb_true_iff in H as [_ H]. auto.
Qed.

(** A blank string trims to the empty string, and only a blank one does. *)
Lemma trim_blank (s : jstring) : isBlank s = true -> trim s = [].
Proof.
  intros H. unfold trim, trimEnd, trimStart.
  now rewrite (dropWhile_all _ _ H).
Qed.

Lemma forallb_dropWhile_self (p : char -> bool) (s : jstring) :
  forallb p (dropWhile p s) = true -> forallb p s = true.
Proof.
  induction s as [|c s IH]; simpl; trivial.
  destruct (p c) eqn:E; simpl; [exact IH|].
  rewrite E. discriminate.
Qed.

Lemma trim_nil_blank (s : jstring) : trim s = [] -> isBlank s = true.
Proof.
  unfold trim, trimEnd, trimStart, isBlank. intros H.
  apply (f_equal (@rev char)) in H. rewrite rev_involutive in H. simpl in H.
  apply dropWhile_nil_all in H. rewrite forallb_rev in H.
  now apply forallb_dropWhile_self.
Qed.

Lemma isEmpty_trim (s : jstring) : isEmpty (trim s) = isBlank s.
Proof.
  destruct (isBlank s) eqn:E.
  - now rewrite (trim_blank _ E).
  - apply isEmpty_false. intros H. apply trim_nil_blank in H. congruence.
Qed.

Lemma trimStart_idem (s : jstring) : trimStart (trimStart s) = trimStart s.
Proof. apply dropWhile_idem. Qed.

Lemma trim_trimStart (s : jstring) : trim (trimStart s) = trim s.
Proof. unfold trim. now rewrite trimStart_idem. Qed.

(** Trimming a text whose first line is not blank and whose last character
    is not white space removes only the white space before the first line. *)
Lemma trim_framed (first rest : jstring) (last : char) :
  isBlank first = false -> isWhiteSpace last = false ->
  trim (first ++ rest ++ [last]) = trimStart first ++ rest ++ [last].
Proof.
  intros Hf Hl. unfold trim, trimStart.
  rewrite (dropWhile_app_stop _ _ _ Hf).
  unfold trimEnd. rewrite !app_assoc, rev_app_distr. simpl.
  rewrite Hl. change (last :: rev (dropWhile isWhiteSpace first ++ rest))
    with (rev [last] ++ rev (dropWhile isWhiteSpace first ++ rest)).
  now rewrite <- rev_app_distr, rev_involutive.
Qed.

(** ** The primitives on small inputs *)

Example trim_example :
  trim (lit "  a b " ++ [newline]) = lit "a b".
Proof. reflexivity. Qed.

Example split_newline_examples :
  split_newline [] = [[]]
  /\ split_newline (lit "a" ++ [newline] ++ [newline] ++ lit "b")
     = [lit "a"; []; lit "b"].
Proof. split; reflexivity. Qed.

Example looseDate_examples :
  map (matches looseDate)
      [lit "15/03/2024"; lit "1/3/2024"; lit "1/3/24"; lit "001/3/2024";
       lit "15-03-2024"; lit "15/03/2024 "; lit ""]
  = [true; true; false; false; false; false; false].
Proof. reflexivity. Qed.

Example strictDate_examples :
  map (matches strictDate)
      [lit "15/03/2024"; lit "1/3/2024"; lit "01/01/20245"; lit ""]
  = [true; false; false; false].
Proof. reflexivity. Qed.

Example parseFloat_examples :
  map parseFloat
      [lit "10"; lit "  7."; lit "-.5e1"; lit "1e3x"; lit "1e"; lit "12.50";
       lit "."; lit "abc"; lit ""; lit "-Infinity"; lit "+"]
  = [Num (10 # 1); Num (7 # 1); Num (-5 # 1); Num (1000 # 1); Num (1 # 1);
     Num (25 # 2); NaN; NaN; NaN; Infinity true; NaN].
Proof. reflexivity. Qed.

Example stripOuterQuotes_examples :
  stripOuterQuotes (quoted (lit "a")) = lit "a"
  /\ stripOuterQuotes [dquote] = []
  /\ stripOuterQuotes (lit "a" ++ [dquote] ++ lit "b")
     = lit "a" ++ [dquote] ++ lit "b".
Proof. repeat split; reflexivity. Qed.

(** ** Splitting into lines *)

Lemma split_from_line (a b cur : jstring) :
  noNewline a = true ->
  split_from (a ++ newline :: b) cur = (cur ++ a) :: split_from b [].
Proof.
  revert cur. induction a as [|c a IH]; intros cur H; simpl.
  - now rewrite app_nil_r.
  - simpl in H. apply andb_true_iff in H as [Hc Ha].
    apply negb_true_iff in Hc. rewrite Hc, IH by assumption.
    now rewrite <- app_assoc.
Qed.

Lemma split_from_last (a cur : jstring) :
  noNewline a = true -> split_from a cur = [cur ++ a].
Proof.
  revert cur. induction a as [|c a IH]; intros cur H; simpl.
  - now rewrite app_nil_r.
  - simpl in H. apply andb_true_iff in H as [Hc Ha].
    apply negb_true_iff in Hc. rewrite Hc, IH by assumption.
    now rewrite <- app_assoc.
Qed.

(** ** The tokenizer *)

Lemma scanLine_outside (s rest : jstring) (result : list jstring)
      (current : jstring) :
  noQuote s = true -> noComma s = true ->
  scanLine (s ++ rest) result current false
  = scanLine rest result (current ++ s) false.
Proof.
  revert current. induction s as [|c s IH]; intros current Hq Hc; simpl.
  - now rewrite app_nil_r.
  - simpl in Hq, Hc.
    apply andb_true_iff in Hq as [Hq1 Hq]. apply andb_true_iff in Hc as [Hc1 Hc].
    apply negb_true_iff in Hq1, Hc1. rewrite Hq1, Hc1. simpl.
    rewrite IH by assumption. now rewrite <- app_assoc.
Qed.

Lemma scanLine_inside (s rest : jstring) (result : list jstring)
      (current : jstring) :
  noQuote s = true ->
  scanLine (s ++ rest) result current true
  = scanLine rest result (current ++ s) true.
Proof.
  revert current. induction s as [|c s IH]; intros current Hq; simpl.
  - now rewrite app_nil_r.
  - simpl in Hq. apply andb_true_iff in Hq as [Hq1 Hq].
    apply negb_true_iff in Hq1. rewrite Hq1, andb_false_r.
    rewrite IH by assumption. now rewrite <- app_assoc.
Qed.

(** No field ever holds a quote: the scan consumes every one of them. *)
Lemma scanLine_noQuote (line : jstring) :
  forall result current inQuotes,
    Forall (fun f => noQuote f = true) result -> noQuote current = true ->
    Forall (fun f => noQuote f = true) (scanLine line result current inQuotes).
Proof.
  induction line as [|c line IH]; intros result current inQuotes Hr Hc; simpl.
  - apply Forall_app. split; [assumption | now constructor].
  - destruct (c =? dquote)%N eqn:Eq; [now apply IH|].
    destruct ((c =? comma)%N && negb inQuotes).
    + apply IH; [|reflexivity].
      apply Forall_app. split; [assumption | now constructor].
    + apply IH; [assumption|].
      unfold noQuote in *. rewrite forallb_app.
      apply andb_true_iff. split; [exact Hc | simpl; now rewrite Eq].
Qed.

Lemma stripLeadingQuote_noQuote (s : jstring) :
  noQuote s = true -> stripLeadingQuote s = s.
Proof.
  destruct s as [|c s]; simpl; trivial.
  intros H. apply andb_true_iff in H as [H _].
  apply negb_true_iff in H. now rewrite H.
Qed.

Lemma stripOuterQuotes_noQuote (s : jstring) :
  noQuote s = true -> stripOuterQuotes s = s.
Proof.
  intros H. unfold stripOuterQuotes.
  rewrite (stripLeadingQuote_noQuote _ H).
  rewrite stripLeadingQuote_noQuote, rev_involutive; trivial.
  unfold noQuote. now rewrite forallb_rev.
Qed.

(** The post-processing of the Netlify tokenizer changes nothing: the two
    variants of [parseCSVLine] are the same function. *)
Lemma parseCSVLine_variants_agree (line : jstring) :
  Netlify.parseCSVLine line = Express.parseCSVLine line.
Proof.
  unfold Netlify.parseCSVLine, Express.parseCSVLine.
  assert (H : Forall (fun f => noQuote f = true) (scanLine line [] [] false))
    by (apply scanLine_noQuote; [constructor | reflexivity]).
  induction H as [|f fs Hf _ IH]; simpl; trivial.
  now rewrite IH, (stripOuterQuotes_noQuote _ Hf).
Qed.

(** ** The leading field of a line *)

Lemma scanLine_head (line : jstring) :
  forall first result current inQuotes,
    nth 0 (scanLine line (first :: result) current inQuotes) [] = first.
Proof.
  induction line as [|c line IH]; intros first result current inQuotes; simpl.
  - reflexivity.
  - destruct (c =? dquote)%N; [apply IH|].
    destruct ((c =? comma)%N && negb inQuotes); [|apply IH].
    change ((first :: result) ++ [current])
      with (first :: (result ++ [current])). apply IH.
Qed.

Lemma scanLine_leadingField (line : jstring) :
  forall current inQuotes,
    nth 0 (scanLine line [] current inQuotes) []
    = leadingField line current inQuotes.
Proof.
  induction line as [|c line IH]; intros current inQuotes; simpl.
  - reflexivity.
  - destruct (c =? dquote)%N; [apply IH|].
    destruct ((c =? comma)%N && negb inQuotes); [|apply IH].
    apply scanLine_head.
Qed.

Lemma leadingField_current (line : jstring) :
  forall current inQuotes,
    leadingField line current inQuotes
    = current ++ leadingField line [] inQuotes.
Proof.
  induction line as [|c line IH]; intros current inQuotes; simpl.
  - now rewrite app_nil_r.
  - destruct (c =? dquote)%N; [apply IH|].
    destruct ((c =? comma)%N && negb inQuotes); [now rewrite app_nil_r|].
    rewrite IH, (IH [c]). now rewrite <- app_assoc.
Qed.

(** Cutting the end of a line keeps a blank leading field blank. *)
Lemma leadingField_blank_prefix (t u : jstring) :
  forall inQuotes,
    isBlank (leadingField (t ++ u) [] inQuotes) = true ->
    isBlank (leadingField t [] inQuotes) = true.
Proof.
  induction t as [|c t IH]; intros inQuotes; simpl; [reflexivity|].
  destruct (c =? dquote)%N; [apply IH|].
  destruct ((c =? comma)%N && negb inQuotes); [reflexivity|].
  rewrite (leadingField_current (t ++ u)), (leadingField_current t).
  unfold isBlank. simpl. intros H.
  apply andb_true_iff in H as [Hc H]. rewrite Hc. simpl. now apply IH.
Qed.

Lemma space_not_separator (c : char) :
  isWhiteSpace c = true -> (c =? dquote)%N = false /\ (c =? comma)%N = false.
Proof.
  intros H. split; apply N.eqb_neq; intros ->; discriminate.
Qed.

(** So does cutting the white space at its start. *)
Lemma leadingField_blank_trimStart (line : jstring) :
  isBlank (leadingField line [] false) = true ->
  isBlank (leadingField (trimStart line) [] false) = true.
Proof.
  unfold trimStart.
  induction line as [|c line IH]; [reflexivity|]. cbn [dropWhile].
  destruct (isWhiteSpace c) eqn:Ec; [|trivial].
  destruct (space_not_separator c Ec) as [Hq Hc].
  cbn [leadingField]. rewrite Hq, Hc. cbn [andb app].
  rewrite leadingField_current. unfold isBlank in *.
  rewrite forallb_app. intros H.
  apply andb_true_iff in H as [_ H]. now apply IH.
Qed.

Lemma dropWhile_suffix (p : char -> bool) (s : jstring) :
  exists w, s = w ++ dropWhile p s.
Proof.
  induction s as [|c s [w IH]]; [now exists []|]. simpl.
  destruct (p c); [|now exists []].
  exists (c :: w). simpl. now rewrite <- IH.
Qed.

Lemma trimEnd_prefix (s : jstring) : exists u, s = trimEnd s ++ u.
Proof.
  unfold trimEnd. destruct (dropWhile_suffix isWhiteSpace (rev s)) as [w E].
  exists (rev w). rewrite <- rev_app_distr, <- E. now rewrite rev_involutive.
Qed.

(** A line whose leading field is blank still has a blank leading field
    once trimmed. *)
Lemma leadingField_blank_trim (line : jstring) :
  isBlank (leadingField line [] false) = true ->
  isBlank (leadingField (trim line) [] false) = true.
Proof.
  intros H. apply leadingField_blank_trimStart in H.
  unfold trim. destruct (trimEnd_prefix (trimStart line)) as [u E].
  rewrite E in H. now apply leadingField_blank_prefix in H.
Qed.

(** ** Character classes and the date patterns *)

Lemma digit_not_space (c : char) : isDigit c = true -> isWhiteSpace c = false.
Proof.
  unfold isDigit, isWhiteSpace. intros H.
  apply andb_true_iff in H as [H1 H2].
  apply N.leb_le in H1, H2.
  apply orb_false_iff. split.
  - simpl. repeat (apply orb_false_iff; split); trivial; apply N.eqb_neq; lia.
  - apply andb_false_iff. left. apply N.leb_gt. lia.
Qed.

Lemma dead_not_nullable (r : regex) : isDead r = true -> nullable r = false.
Proof.
  induction r; simpl; intros H; try congruence.
  - apply orb_true_iff in H as [H|H];
      [rewrite IHr1 | rewrite IHr2, andb_false_r]; trivial.
  - apply andb_true_iff in H as [H1 H2]. now rewrite IHr1, IHr2.
Qed.

Lemma dead_deriv (r : regex) (c : char) :
  isDead r = true -> isDead (deriv r c) = true.
Proof.
  induction r; simpl; intros H; try congruence.
  - apply orb_true_iff in H as [H|H].
    + rewrite (dead_not_nullable _ H). simpl. now rewrite IHr1.
    + destruct (nullable r1); simpl; rewrite ?IHr2, H, ?orb_true_r; trivial.
  - apply andb_true_iff in H as [H1 H2]. now rewrite IHr1, IHr2.
Qed.

Lemma matches_dead (s : jstring) :
  forall r, isDead r = true -> matches r s = false.
Proof.
  induction s as [|c s IH]; intros r H; simpl.
  - now apply dead_not_nullable.
  - apply IH. now apply dead_deriv.
Qed.

(** A string that matches the strict date pattern starts with a digit. *)
Lemma strictDate_head (s : jstring) :
  matches strictDate s = true ->
  exists c r, s = c :: r /\ isDigit c = true.
Proof.
  destruct s as [|c r]; [discriminate|]. intros H.
  destruct (isDigit c) eqn:E; [now exists c, r|].
  exfalso. simpl in H. rewrite E in H.
  rewrite matches_dead in H; [discriminate | reflexivity].
Qed.

Lemma strictDate_not_blank (s : jstring) :
  matches strictDate s = true -> isBlank s = false.
Proof.
  intros H. destruct (strictDate_head _ H) as (c & r & -> & Hc).
  simpl. now rewrite (digit_not_space _ Hc).
Qed.

(** ** The number normalizers *)

Lemma removeQuotesAndSpaces_blank (s : jstring) :
  isBlank s = true -> removeQuotesAndSpaces s = [].
Proof.
  induction s as [|c s IH]; simpl; trivial.
  intros H. apply andb_true_iff in H as [Hc Hs].
  rewrite Hc, orb_true_r. simpl. auto.
Qed.

Lemma parseNumber_not_NaN (str : jstring) :
  isNaN (Netlify.parseNumber str) = false.
Proof.
  unfold Netlify.parseNumber.
  destruct (isEmpty str || jstring_eqb (trim str) []); trivial.
  destruct (parseFloat _); trivial.
Qed.

Lemma parseItalianNumber_not_NaN (str : jstring) :
  isNaN (Express.parseItalianNumber str) = false.
Proof.
  unfold Express.parseItalianNumber.
  destruct (isEmpty str); trivial.
  destruct (isEmpty (removeQuotesAndSpaces str)); trivial.
  destruct (parseFloat _); trivial.
Qed.

(** ** The data loops *)

Lemma Netlify_loop_flat_map (lines : list jstring) :
  forall acc,
    Netlify.loop lines acc = acc ++ flat_map (emitted Netlify.row) lines.
Proof.
  induction lines as [|l lines IH]; intros acc; simpl.
  - now rewrite app_nil_r.
  - unfold emitted at 1. destruct (Netlify.row l); rewrite IH; trivial.
    now rewrite <- app_assoc.
Qed.

Lemma Express_loop_flat_map (lines : list jstring) :
  forall acc,
    Express.loop lines acc = acc ++ flat_map (emitted Express.row) lines.
Proof.
  induction lines as [|l lines IH]; intros acc; simpl.
  - now rewrite app_nil_r.
  - unfold emitted at 1. destruct (Express.row l); rewrite IH; trivial.
    now rewrite <- app_assoc.
Qed.

Lemma Netlify_row_date (line : jstring) (r : EnergyData) :
  Netlify.row line = Some r -> date r <> [].
Proof.
  unfold Netlify.row.
  destruct (isEmpty (trim line)); [discriminate|].
  destruct (length (Netlify.parseCSVLine line) <? 4)%nat; [discriminate|].
  destruct (isEmpty (trim (nth 0 (Netlify.parseCSVLine line) []))) eqn:E;
    [discriminate|].
  simpl. intros H. injection H as <-. simpl. now apply isEmpty_false.
Qed.

Lemma Express_row_date (line : jstring) (r : EnergyData) :
  Express.row line = Some r -> date r <> [] /\ matches strictDate (date r) = true.
Proof.
  unfold Express.row.
  destruct (isEmpty (trim line)); [discriminate|].
  destruct (3 <=? length (Express.parseCSVLine (trim line)))%nat;
    [|discriminate].
  destruct (isEmpty (nth 0 (Express.parseCSVLine (trim line)) [])) eqn:E;
    [discriminate|].
  destruct (matches strictDate (nth 0 (Express.parseCSVLine (trim line)) []))
    eqn:M; [|discriminate].
  simpl. rewrite !parseItalianNumber_not_NaN. simpl.
  intros H. injection H as <-. simpl. split; [now apply isEmpty_false | exact M].
Qed.

(* ================================================================== *)
(** * The tokenizer and the number normalizer against the specification *)
(* ================================================================== *)

Lemma scanLine_quoted_field (a b d : jstring) :
  noQuote a = true -> noComma a = true -> noQuote b = true ->
  noQuote d = true -> noComma d = true ->
  scanLine (a ++ comma :: quoted b ++ comma :: d) [] [] false = [a; b; d].
Proof.
  intros Ha Ha' Hb Hd Hd'.
  rewrite scanLine_outside by assumption. simpl.
  rewrite <- app_assoc. rewrite scanLine_inside by assumption. simpl.
  pose proof (scanLine_outside d [] [a; b] [] Hd Hd') as E.
  rewrite app_nil_r in E. exact E.
Qed.

(** C6. Tokenizing the line a,QbcQ,d where the middle field is written
    between double quotes and reads b,c yields exactly the three fields a,
    b,c and d, in both variants of the tokenizer; more generally a field
    written between double quotes may hold any number of commas and still
    comes out as one field, its quotes removed. *)
Theorem C6_comma_inside_quotes_is_not_a_separator :
  (Netlify.parseCSVLine (lit "a," ++ quoted (lit "b,c") ++ lit ",d")
   = [lit "a"; lit "b,c"; lit "d"]
   /\ Express.parseCSVLine (lit "a," ++ quoted (lit "b,c") ++ lit ",d")
      = [lit "a"; lit "b,c"; lit "d"])
  /\ forall a b d : jstring,
      noQuote a = true -> noComma a = true -> noQuote b = true ->
      noQuote d = true -> noComma d = true ->
      Netlify.parseCSVLine (a ++ comma :: quoted b ++ comma :: d) = [a; b; d]
      /\ Express.parseCSVLine (a ++ comma :: quoted b ++ comma :: d)
         = [a; b; d].
Proof.
  split; [split; reflexivity|].
  intros a b d Ha Ha' Hb Hd Hd'.
  rewrite parseCSVLine_variants_agree. unfold Express.parseCSVLine.
  split; now apply scanLine_quoted_field.
Qed.

Lemma C6_witness :
  Netlify.parseCSVLine (lit "x" ++ comma :: quoted (lit "1,2,3") ++ comma :: lit "y")
  = [lit "x"; lit "1,2,3"; lit "y"]
  /\ Express.parseCSVLine (lit "x" ++ comma :: quoted (lit "1,2,3") ++ comma :: lit "y")
     = [lit "x"; lit "1,2,3"; lit "y"].
Proof.
  apply (proj2 C6_comma_inside_quotes_is_not_a_separator
               (lit "x") (lit "1,2,3") (lit "y")); reflexivity.
Defined.

(** C4. The number normalizers of both variants degrade to zero: a blank
    (empty or all-white-space) input yields 0, an input whose normalized
    text [parseFloat] cannot read yields 0, and the result is never NaN.
    Both are total functions into numbers, so no input makes them signal a
    failure.  The empty string, three spaces and abc all yield 0. *)
Theorem C4_normalizer_degrades_to_zero (str : jstring) :
  (isBlank str = true ->
   Netlify.parseNumber str = zero /\ Express.parseItalianNumber str = zero)
  /\ (parseFloat (removeSpaces (replaceAllCommas str)) = NaN ->
      Netlify.parseNumber str = zero)
  /\ (parseFloat (replaceFirstComma (removeQuotesAndSpaces str)) = NaN ->
      Express.parseItalianNumber str = zero)
  /\ isNaN (Netlify.parseNumber str) = false
  /\ isNaN (Express.parseItalianNumber str) = false
  /\ map Netlify.parseNumber [lit ""; lit "   "; lit "abc"]
     = [zero; zero; zero]
  /\ map Express.parseItalianNumber [lit ""; lit "   "; lit "abc"]
     = [zero; zero; zero].
Proof.
  repeat split.
  - unfold Netlify.parseNumber.
    rewrite (trim_blank _ H), jstring_eqb_refl. now rewrite orb_true_r.
  - unfold Express.parseItalianNumber.
    rewrite (removeQuotesAndSpaces_blank _ H). now destruct (isEmpty str).
  - intros H. unfold Netlify.parseNumber.
    destruct (isEmpty str || jstring_eqb (trim str) []); trivial.
    now rewrite H.
  - intros H. unfold Express.parseItalianNumber.
    destruct (isEmpty str); trivial.
    destruct (isEmpty (removeQuotesAndSpaces str)); trivial.
    now rewrite H.
  - apply parseNumber_not_NaN.
  - apply parseItalianNumber_not_NaN.
Qed.

Lemma C4_witness :
  (isBlank (lit "   ") = true
   /\ Netlify.parseNumber (lit "   ") = zero
   /\ Express.parseItalianNumber (lit "   ") = zero)
  /\ (parseFloat (removeSpaces (replaceAllCommas (lit "n/a"))) = NaN
      /\ Netlify.parseNumber (lit "n/a") = zero)
  /\ (parseFloat (replaceFirstComma (removeQuotesAndSpaces (lit "n/a"))) = NaN
      /\ Express.parseItalianNumber (lit "n/a") = zero).
Proof.
  split; [|split].
  - split; [reflexivity|].
    apply (proj1 (C4_normalizer_degrades_to_zero (lit "   "))). reflexivity.
  - split; [reflexivity|].
    apply (proj1 (proj2 (C4_normalizer_degrades_to_zero (lit "n/a")))).
    reflexivity.
  - split; [reflexivity|].
    apply (proj1 (proj2 (proj2 (C4_normalizer_degrades_to_zero (lit "n/a"))))).
    reflexivity.
Defined.

(** C5. Normalizing 1.234,56 yields 1.234 in both variants, the value of
    the longest numeric prefix of 1.234.56, and not 1234.56: no thousands
    separator is removed.  Normalizing 12,50 yields 12.5. *)
Theorem C5_naive_comma_substitution :
  numberIs (Netlify.parseNumber (lit "1.234,56")) (1234 # 1000)
  /\ numberIs (Express.parseItalianNumber (lit "1.234,56")) (1234 # 1000)
  /\ ~ numberIs (Netlify.parseNumber (lit "1.234,56")) (123456 # 100)
  /\ ~ numberIs (Express.parseItalianNumber (lit "1.234,56")) (123456 # 100)
  /\ replaceFirstComma (removeQuotesAndSpaces (lit "1.234,56")) = lit "1.234.56"
  /\ removeSpaces (replaceAllCommas (lit "1.234,56")) = lit "1.234.56"
  /\ numberIs (Netlify.parseNumber (lit "12,50")) (125 # 10)
  /\ numberIs (Express.parseItalianNumber (lit "12,50")) (125 # 10).
Proof.
  repeat split; try reflexivity; vm_compute; discriminate.
Qed.

(** C9. [parseItalianNumber] never returns NaN, so the guard
    [!isNaN(gas) && !isNaN(power)] of the Express row loop holds for every
    pair of cells, and every row that reaches it (a non-blank line with at
    least three fields whose first field is a strict date) is pushed. *)
Theorem C9_NaN_guard_never_excludes :
  (forall str, isNaN (Express.parseItalianNumber str) = false)
  /\ (forall gasStr powerStr,
        negb (isNaN (Express.parseItalianNumber gasStr))
        && negb (isNaN (Express.parseItalianNumber powerStr)) = true)
  /\ (forall rawLine,
        let columns := Express.parseCSVLine (trim rawLine) in
        isEmpty (trim rawLine) = false ->
        (3 <= length columns)%nat ->
        matches strictDate (nth 0 columns []) = true ->
        Express.row rawLine
        = Some {| date := nth 0 columns [];
                  gas := Express.parseItalianNumber (nth 1 columns []);
                  power := Express.parseItalianNumber (nth 2 columns []) |}).
Proof.
  split; [exact parseItalianNumber_not_NaN|]. split.
  - intros. now rewrite !parseItalianNumber_not_NaN.
  - intros rawLine columns Hline Hlen Hdate. unfold Express.row.
    fold columns. rewrite Hline.
    apply Nat.leb_le in Hlen. rewrite Hlen, Hdate.
    destruct (strictDate_head _ Hdate) as (c & r & E & _). rewrite E at 1.
    simpl. now rewrite !parseItalianNumber_not_NaN.
Qed.

Lemma C9_witness :
  Express.row (lit "01/01/2024,abc,1e999")
  = Some {| date := lit "01/01/2024";
            gas := Express.parseItalianNumber (lit "abc");
            power := Express.parseItalianNumber (lit "1e999") |}.
Proof.
  apply (proj2 (proj2 C9_NaN_guard_never_excludes)
               (lit "01/01/2024,abc,1e999")).
  - reflexivity.
  - vm_compute. lia.
  - reflexivity.
Defined.

(* ================================================================== *)
(** * The row assembler against the specification *)
(* ================================================================== *)

Lemma Netlify_data (today csvText : jstring) :
  data (Netlify.parseCSVData today csvText)
  = flat_map (emitted Netlify.row) (skipn 6 (textLines csvText)).
Proof.
  unfold Netlify.parseCSVData. simpl. now rewrite Netlify_loop_flat_map.
Qed.

Lemma Express_data (today today' csvText : jstring) :
  data (Express.parseCSVData today today' csvText)
  = flat_map (emitted Express.row) (textLines csvText).
Proof.
  unfold Express.parseCSVData. simpl. now rewrite Express_loop_flat_map.
Qed.

Lemma Netlify_row_skipped (line : jstring) :
  Netlify.row line = None <->
  isBlank line = true
  \/ (length (Netlify.parseCSVLine line) < 4)%nat
  \/ isBlank (nth 0 (Netlify.parseCSVLine line) []) = true.
Proof.
  unfold Netlify.row. rewrite !isEmpty_trim.
  destruct (isBlank line); [tauto|].
  destruct (Nat.ltb_spec (length (Netlify.parseCSVLine line)) 4); [tauto|].
  destruct (isBlank (nth 0 (Netlify.parseCSVLine line) [])); [tauto|].
  simpl. split; [discriminate|]. intros [H'|[H'|H']]; try discriminate; lia.
Qed.

Lemma Express_row_skipped (rawLine : jstring) :
  Express.row rawLine = None <->
  isBlank rawLine = true
  \/ (length (Express.parseCSVLine (trim rawLine)) < 3)%nat
  \/ matches strictDate (nth 0 (Express.parseCSVLine (trim rawLine)) [])
     = false.
Proof.
  unfold Express.row. rewrite isEmpty_trim.
  destruct (isBlank rawLine); [tauto|].
  destruct (Nat.leb_spec 3 (length (Express.parseCSVLine (trim rawLine))));
    [|tauto].
  destruct (matches strictDate (nth 0 (Express.parseCSVLine (trim rawLine)) []))
    eqn:M.
  - destruct (strictDate_head _ M) as (c & r & E & _). rewrite E at 1.
    simpl. rewrite !parseItalianNumber_not_NaN. simpl.
    split; [discriminate|]. intros [H'|[H'|H']]; try discriminate; lia.
  - rewrite orb_true_r. tauto.
Qed.

(** C2, as stated, fails in both variants: the Netlify loop drops the row
    01/01/2024,1,2 (it asks for four fields), and the Express loop drops
    the row 1/1/2024,1,2 (its leading field is not a two-digit date),
    although neither row meets the skip rule of the specification. *)
Lemma C2_counterexample :
  (specSkips Netlify.parseCSVLine (lit "01/01/2024,1,2") = false
   /\ Netlify.row (lit "01/01/2024,1,2") = None)
  /\ (specSkips Express.parseCSVLine (lit "1/1/2024,1,2") = false
      /\ Express.row (lit "1/1/2024,1,2") = None).
Proof. repeat split; reflexivity. Qed.

(** C2, amended.  The Netlify loop reads the lines from the seventh on and
    skips one exactly when it is blank, or fewer than FOUR fields are
    tokenized, or the leading field is blank.  The Express loop reads every
    line and skips one exactly when it is blank, or fewer than three fields
    are tokenized from the trimmed line, or the leading field is not a
    strict DD/MM/YYYY date.  Each line that is not skipped contributes
    exactly one record, in source order.  A row of two fields is dropped by
    both; the row 01/01/2024,1,2 is kept by the Express loop. *)
Theorem C2_row_is_skipped_iff (today today' csvText line : jstring) :
  (Netlify.row line = None <->
   isBlank line = true
   \/ (length (Netlify.parseCSVLine line) < 4)%nat
   \/ isBlank (nth 0 (Netlify.parseCSVLine line) []) = true)
  /\ (Express.row line = None <->
      isBlank line = true
      \/ (length (Express.parseCSVLine (trim line)) < 3)%nat
      \/ matches strictDate (nth 0 (Express.parseCSVLine (trim line)) [])
         = false)
  /\ data (Netlify.parseCSVData today csvText)
     = flat_map (emitted Netlify.row) (skipn 6 (textLines csvText))
  /\ data (Express.parseCSVData today today' csvText)
     = flat_map (emitted Express.row) (textLines csvText)
  /\ (length (emitted Netlify.row line) <= 1
      /\ length (emitted Express.row line) <= 1)%nat
  /\ (length (Netlify.parseCSVLine line) = 2%nat -> Netlify.row line = None)
  /\ (length (Express.parseCSVLine (trim line)) = 2%nat ->
      Express.row line = None)
  /\ Express.row (lit "01/01/2024,1,2")
     = Some {| date := lit "01/01/2024"; gas := Num (1 # 1); power := Num (2 # 1) |}.
Proof.
  split; [apply Netlify_row_skipped|].
  split; [apply Express_row_skipped|].
  split; [apply Netlify_data|].
  split; [apply Express_data|].
  split.
  { unfold emitted. destruct (Netlify.row line), (Express.row line);
      simpl; lia. }
  split.
  { intros H. apply Netlify_row_skipped. right. left. lia. }
  split.
  { intros H. apply Express_row_skipped. right. left. lia. }
  reflexivity.
Qed.

Lemma C2_witness :
  length (Netlify.parseCSVLine (lit "01/01/2024,7")) = 2%nat
  /\ Netlify.row (lit "01/01/2024,7") = None
  /\ Express.row (lit "01/01/2024,7") = None.
Proof.
  pose proof (C2_row_is_skipped_iff [] [] [] (lit "01/01/2024,7"))
    as (_ & _ & _ & _ & _ & HN & HE & _).
  split; [reflexivity|]. split; [apply HN | apply HE]; reflexivity.
Defined.

(** C7. Every record either parser returns has a non-empty date, and a
    row whose leading field is empty or all white space yields no record,
    in both variants; for the Express loop this holds of the line as it
    stands in the text as well as of the trimmed line it tokenizes. *)
Theorem C7_every_record_has_a_date (today today' csvText : jstring) :
  Forall (fun r => date r <> [])
         (data (Netlify.parseCSVData today csvText))
  /\ Forall (fun r => date r <> [])
            (data (Express.parseCSVData today today' csvText))
  /\ (forall line,
        isBlank (nth 0 (Netlify.parseCSVLine line) []) = true ->
        Netlify.row line = None)
  /\ (forall line,
        isBlank (nth 0 (Express.parseCSVLine (trim line)) []) = true ->
        Express.row line = None)
  /\ (forall line,
        isBlank (nth 0 (Express.parseCSVLine line) []) = true ->
        Express.row line = None).
Proof.
  assert (HE : forall line,
             isBlank (nth 0 (Express.parseCSVLine (trim line)) []) = true ->
             Express.row line = None).
  { intros line H. apply Express_row_skipped. right. right.
    destruct (matches strictDate _) eqn:M; trivial.
    apply strictDate_not_blank in M. congruence. }
  split; [|split; [|split; [|split]]].
  - rewrite Netlify_data. apply Forall_flat_map, Forall_forall.
    intros line _. unfold emitted.
    destruct (Netlify.row line) eqn:E; constructor; trivial.
    now apply (Netlify_row_date line).
  - rewrite Express_data. apply Forall_flat_map, Forall_forall.
    intros line _. unfold emitted.
    destruct (Express.row line) eqn:E; constructor; trivial.
    now apply (Express_row_date line).
  - intros line H. apply Netlify_row_skipped. now right; right.
  - exact HE.
  - intros line H. apply HE. unfold Express.parseCSVLine in *.
    rewrite scanLine_leadingField in *. now apply leadingField_blank_trim.
Qed.

Lemma C7_witness :
  (isBlank (nth 0 (Netlify.parseCSVLine (lit "  ,1,2,3")) []) = true
   /\ Netlify.row (lit "  ,1,2,3") = None)
  /\ (isBlank (nth 0 (Express.parseCSVLine (trim (lit ",1,2"))) []) = true
      /\ Express.row (lit ",1,2") = None)
  /\ (isBlank (nth 0 (Express.parseCSVLine (lit "  ,1,2")) []) = true
      /\ Express.row (lit "  ,1,2") = None).
Proof.
  pose proof (C7_every_record_has_a_date [] [] []) as (_ & _ & HN & HE & HR).
  split; [|split]; (split; [reflexivity|]);
    [apply HN | apply HE | apply HR]; reflexivity.
Defined.

(* ================================================================== *)
(** * The file date against the specification *)
(* ================================================================== *)

Lemma looseDate_not_empty (s : jstring) :
  matches looseDate (removeQuotesAndSpaces s) = true -> isEmpty s = false.
Proof. destruct s; [discriminate | reflexivity]. Qed.

(** The test on the columns guards nothing more than the pattern does. *)
Lemma dateCell_guard (columns : list jstring) (c : nat) (fileDate : jstring) :
  (if (S c <=? length columns)%nat && negb (isEmpty (nth c columns []))
   then if matches looseDate (removeQuotesAndSpaces (nth c columns []))
        then removeQuotesAndSpaces (nth c columns [])
        else fileDate
   else fileDate)
  = if matches looseDate (removeQuotesAndSpaces (nth c columns []))
    then removeQuotesAndSpaces (nth c columns [])
    else fileDate.
Proof.
  destruct (matches looseDate (removeQuotesAndSpaces (nth c columns [])))
    eqn:M.
  - rewrite (looseDate_not_empty _ M).
    destruct (Nat.leb_spec (S c) (length columns)) as [H|H]; trivial.
    rewrite nth_overflow in M by lia. discriminate.
  - now destruct (_ && _).
Qed.

Lemma Netlify_fileDate (today csvText : jstring) :
  fileDate (Netlify.parseCSVData today csvText)
  = if validDateCell (textLines csvText) 4 4
    then cell (textLines csvText) 4 4
    else today.
Proof.
  unfold Netlify.parseCSVData, validDateCell, cell. fold (textLines csvText).
  cbn [fileDate]. rewrite parseCSVLine_variants_agree.
  rewrite (dateCell_guard _ 4).
  change (5 <=? length (textLines csvText))%nat
    with (4 <? length (textLines csvText))%nat.
  now destruct (4 <? length (textLines csvText))%nat.
Qed.

Lemma Express_fileDate (today today' csvText : jstring) :
  fileDate (Express.parseCSVData today today' csvText)
  = let e5 := if validDateCell (textLines csvText) 4 4
              then cell (textLines csvText) 4 4
              else today in
    if jstring_eqb e5 today' && validDateCell (textLines csvText) 1 3
    then cell (textLines csvText) 1 3
    else e5.
Proof.
  unfold Express.parseCSVData, validDateCell, cell. fold (textLines csvText).
  cbn [fileDate]. rewrite (dateCell_guard _ 4), (dateCell_guard _ 3).
  change (5 <=? length (textLines csvText))%nat
    with (4 <? length (textLines csvText))%nat.
  change (2 <=? length (textLines csvText))%nat
    with (1 <? length (textLines csvText))%nat.
  cbv zeta.
  destruct (4 <? length (textLines csvText))%nat; simpl;
    destruct (jstring_eqb _ today'); simpl; trivial;
    destruct (1 <? length (textLines csvText))%nat; simpl; trivial.
Qed.

(** C3, as stated, fails in the Express variant: with no date in cell E5
    and a date in the fourth column of the second line, the file date is
    that date and not the current one. *)
Lemma C3_counterexample :
  let csvText :=
    joinLines [ lit "Data,Gas,Power,Data Oggi";
                lit "01/01/2024,1,2,14/03/2024";
                lit "x"; lit "y"; lit ",,,,n/a"; lit "z" ] in
  let today := lit "1/11/2026" in
  validDateCell (textLines csvText) 4 4 = false
  /\ fileDate (Express.parseCSVData today today csvText) = lit "14/03/2024"
  /\ fileDate (Express.parseCSVData today today csvText) <> today.
Proof. repeat split. vm_compute. discriminate. Qed.

(** C3, amended.  Lines are those of the trimmed text.  When the text has
    at least five lines and the fifth field of the fifth line, quotes and
    white space removed, is a date D{1,2}/D{1,2}/DDDD, the Netlify parser
    returns exactly that value as file date, and so does the Express parser
    when the value is not today's formatted date.  When there is no such
    date, the Netlify parser returns today's formatted date; the Express
    parser returns the fourth field of the second line when that is a date
    (and the two readings of the clock agree), and today's formatted date
    otherwise. *)
Theorem C3_file_date (today today' csvText : jstring) :
  let lines := textLines csvText in
  (validDateCell lines 4 4 = true ->
   fileDate (Netlify.parseCSVData today csvText) = cell lines 4 4
   /\ (cell lines 4 4 <> today' ->
       fileDate (Express.parseCSVData today today' csvText) = cell lines 4 4))
  /\ (validDateCell lines 4 4 = false ->
      fileDate (Netlify.parseCSVData today csvText) = today
      /\ fileDate (Express.parseCSVData today today' csvText)
         = if jstring_eqb today today' && validDateCell lines 1 3
           then cell lines 1 3
           else today).
Proof.
  intros lines. subst lines.
  rewrite Netlify_fileDate, Express_fileDate. split; intros H; rewrite H.
  - split; trivial. intros Hne. cbv zeta.
    apply jstring_eqb_neq in Hne. now rewrite Hne.
  - split; trivial.
Qed.

Lemma C3_witness :
  let valid :=
    joinLines [ lit "a"; lit "b"; lit "c"; lit "d";
                lit ",,,," ++ quoted (lit "15/03/2024") ++ lit ",,";
                lit "e" ] in
  let invalid :=
    joinLines [ lit "a"; lit "b"; lit "c"; lit "d"; lit ",,,,soon"; lit "e" ] in
  let today := lit "1/11/2026" in
  (validDateCell (textLines valid) 4 4 = true
   /\ fileDate (Netlify.parseCSVData today valid) = lit "15/03/2024"
   /\ fileDate (Express.parseCSVData today today valid) = lit "15/03/2024")
  /\ (validDateCell (textLines invalid) 4 4 = false
      /\ fileDate (Netlify.parseCSVData today invalid) = today
      /\ fileDate (Express.parseCSVData today today invalid) = today).
Proof.
  intros valid invalid today.
  destruct (C3_file_date today today valid) as [Hv _].
  destruct (C3_file_date today today invalid) as [_ Hi].
  split.
  - split; [reflexivity|].
    destruct (Hv eq_refl) as [HN HE]. split; [exact HN|].
    apply HE. vm_compute. discriminate.
  - split; [reflexivity|].
    destruct (Hi eq_refl) as [HN HE]. split; [exact HN | exact HE].
Defined.

(** C10. In the Express parser the fallback on the second line runs
    whenever the file date at that point equals today's formatted date,
    whether it came from cell E5 or from the clock.  So when E5 holds a
    date equal to today's formatted date and the fourth field of the
    second line holds a date, the file date returned is the latter. *)
Theorem C10_fallback_overrides_E5 (today today' csvText : jstring) :
  let lines := textLines csvText in
  (fileDate (Express.parseCSVData today today' csvText)
   = let e5 := if validDateCell lines 4 4 then cell lines 4 4 else today in
     if jstring_eqb e5 today' && validDateCell lines 1 3
     then cell lines 1 3
     else e5)
  /\ (validDateCell lines 4 4 = true ->
      cell lines 4 4 = today' ->
      validDateCell lines 1 3 = true ->
      fileDate (Express.parseCSVData today today' csvText) = cell lines 1 3).
Proof.
  intros lines. subst lines. split; [apply Express_fileDate|].
  intros H5 He H2. rewrite Express_fileDate, H5, H2. cbv zeta.
  now rewrite He, jstring_eqb_refl.
Qed.

Lemma C10_witness :
  let csvText :=
    joinLines [ lit "Data,Gas,Power,Data Oggi";
                lit "01/10/2026,1,2,31/10/2026";
                lit "x"; lit "y"; lit ",,,,1/11/2026"; lit "z" ] in
  let today := lit "1/11/2026" in
  cell (textLines csvText) 4 4 = today
  /\ cell (textLines csvText) 1 3 = lit "31/10/2026"
  /\ fileDate (Express.parseCSVData today today csvText) = lit "31/10/2026".
Proof.
  intros csvText today. split; [reflexivity|]. split; [reflexivity|].
  apply (proj2 (C10_fallback_overrides_E5 today today csvText)); reflexivity.
Defined.

(* ================================================================== *)
(** * The end-to-end scenario *)
(* ================================================================== *)

Lemma joinLines_cons (l l' : jstring) (rest : list jstring) :
  joinLines (l :: l' :: rest) = l ++ newline :: joinLines (l' :: rest).
Proof. reflexivity. Qed.

Lemma split_joinLines (ls : list jstring) :
  Forall (fun l => noNewline l = true) ls -> ls <> [] ->
  split_newline (joinLines ls) = ls.
Proof.
  unfold split_newline.
  induction ls as [|l ls IH]; intros H Hne; [congruence|].
  inversion H as [|? ? Hl Hls]; subst.
  destruct ls as [|l' rest].
  - simpl. now rewrite split_from_last.
  - rewrite joinLines_cons, split_from_line by assumption.
    simpl app. f_equal. apply IH; [assumption | discriminate].
Qed.

Lemma joinLines_last (ls : list jstring) (x : jstring) (c : char) :
  exists body, joinLines (ls ++ [x ++ [c]]) = body ++ [c].
Proof.
  induction ls as [|l ls [body IH]].
  - now exists x.
  - destruct ls as [|l' rest].
    + exists (l ++ newline :: x). simpl. now rewrite <- app_assoc.
    + exists (l ++ newline :: body).
      change ((l :: l' :: rest) ++ [x ++ [c]])
        with (l :: l' :: (rest ++ [x ++ [c]])).
      rewrite joinLines_cons.
      change (l' :: rest ++ [x ++ [c]]) with ((l' :: rest) ++ [x ++ [c]]).
      rewrite IH. now rewrite <- app_assoc.
Qed.

(** The lines of a text whose first line is not blank and whose last
    character is not white space: only the first line loses its leading
    white space. *)
Lemma textLines_joinLines (l1 : jstring) (ls : list jstring)
      (x : jstring) (c : char) :
  isBlank l1 = false -> isWhiteSpace c = false ->
  Forall (fun l => noNewline l = true) (l1 :: ls ++ [x ++ [c]]) ->
  textLines (joinLines (l1 :: ls ++ [x ++ [c]]))
  = trimStart l1 :: ls ++ [x ++ [c]].
Proof.
  intros Hb Hc Hn. unfold textLines.
  destruct (joinLines_last ls x c) as [body Hbody].
  assert (Hne : ls ++ [x ++ [c]] <> []) by (destruct ls; discriminate).
  destruct (ls ++ [x ++ [c]]) as [|l' rest] eqn:E; [congruence|].
  rewrite joinLines_cons, Hbody.
  change (l1 ++ newline :: body ++ [c]) with (l1 ++ (newline :: body) ++ [c]).
  rewrite trim_framed by assumption.
  change (trimStart l1 ++ (newline :: body) ++ [c])
    with (trimStart l1 ++ newline :: (body ++ [c])).
  rewrite <- Hbody, <- joinLines_cons.
  apply split_joinLines; [|discriminate].
  inversion Hn as [|? ? H1 Hrest]; subst. constructor; trivial.
  now apply dropWhile_forallb.
Qed.

Lemma Express_row_trimStart (l : jstring) :
  Express.row (trimStart l) = Express.row l.
Proof. unfold Express.row. now rewrite trim_trimStart. Qed.

Lemma SheetData_eq (s : SheetData) (f : jstring) (d : list EnergyData) :
  fileDate s = f -> data s = d -> s = {| fileDate := f; data := d |}.
Proof. destruct s; simpl; congruence. Qed.

(** C1, as stated, fails in both variants: on the scenario input the
    Netlify parser returns no record at all, and the Express parser
    returns the record with gas 10 and power 5. *)
Lemma C1_counterexample :
  let csvText :=
    scenario (lit "h1") (lit "h2") (lit "h3") (lit "h4") (lit "h6")
             (lit "01/01/2024,10,5") in
  let today := lit "1/11/2026" in
  let claimed :=
    {| fileDate := lit "15/03/2024";
       data := [ {| date := lit "01/01/2024";
                    gas := Num (5 # 1); power := Num (10 # 1) |} ] |} in
  Netlify.parseCSVData today csvText
  = {| fileDate := lit "15/03/2024"; data := [] |}
  /\ Netlify.parseCSVData today csvText <> claimed
  /\ Express.parseCSVData today today csvText
     = {| fileDate := lit "15/03/2024";
          data := [ {| date := lit "01/01/2024";
                       gas := Num (10 # 1); power := Num (5 # 1) |} ] |}
  /\ Express.parseCSVData today today csvText <> claimed.
Proof.
  repeat split; try reflexivity; vm_compute; discriminate.
Qed.

Section Scenario.

Variables l1 l2 l3 l4 l6 : jstring.
Hypothesis headers_are_lines :
  Forall (fun l => noNewline l = true) [l1; l2; l3; l4; l6].
Hypothesis first_line_not_blank : isBlank l1 = false.

Lemma scenario_lines (l7 : jstring) :
  noNewline l7 = true ->
  textLines (scenario l1 l2 l3 l4 l6 l7)
  = [trimStart l1; l2; l3; l4; e5Line; l6; l7; lit ",,,"].
Proof.
  intros H7.
  apply (textLines_joinLines l1 [l2; l3; l4; e5Line; l6; l7] (lit ",,") comma);
    trivial.
  repeat match goal with
         | H : Forall _ (_ :: _) |- _ => inversion_clear H
         end.
  repeat constructor; trivial.
Qed.

(** C1, amended.  On the scenario input, whatever the header lines 1-4 and
    6 are (line 1 not blank): the Netlify parser returns the file date
    15/03/2024 and NO record, because line 7 has three fields and it asks
    for four; with a fourth field on line 7 it returns exactly the record
    with date 01/01/2024, gas 5 and power 10.  The Express parser returns
    the file date 15/03/2024 (unless that string is today's formatted
    date) and, when no header line is a data row, exactly the record with
    date 01/01/2024, gas 10 and power 5.  The blank line 8 yields no record
    in either. *)
Theorem C1_end_to_end_scenario (today today' : jstring) :
  Netlify.parseCSVData today
    (scenario l1 l2 l3 l4 l6 (lit "01/01/2024,10,5"))
  = {| fileDate := lit "15/03/2024"; data := [] |}
  /\ Netlify.parseCSVData today
       (scenario l1 l2 l3 l4 l6 (lit "01/01/2024,10,5,0"))
     = {| fileDate := lit "15/03/2024";
          data := [ {| date := lit "01/01/2024";
                       gas := Num (5 # 1); power := Num (10 # 1) |} ] |}
  /\ (today' <> lit "15/03/2024" ->
      Forall (fun l => Express.row l = None) [l1; l2; l3; l4; l6] ->
      Express.parseCSVData today today'
        (scenario l1 l2 l3 l4 l6 (lit "01/01/2024,10,5"))
      = {| fileDate := lit "15/03/2024";
           data := [ {| date := lit "01/01/2024";
                        gas := Num (10 # 1); power := Num (5 # 1) |} ] |})
  /\ Netlify.row (lit ",,,") = None
  /\ Express.row (lit ",,,") = None.
Proof.
  split; [|split; [|split; [|split; reflexivity]]].
  - apply SheetData_eq.
    + rewrite Netlify_fileDate, scenario_lines by reflexivity. reflexivity.
    + rewrite Netlify_data, scenario_lines by reflexivity. reflexivity.
  - apply SheetData_eq.
    + rewrite Netlify_fileDate, scenario_lines by reflexivity. reflexivity.
    + rewrite Netlify_data, scenario_lines by reflexivity. reflexivity.
  - intros Htoday Hrows. apply SheetData_eq.
    + rewrite Express_fileDate, scenario_lines by reflexivity.
      change (validDateCell _ 4 4) with true.
      change (cell _ 4 4) with (lit "15/03/2024"). cbv zeta iota.
      assert (E : jstring_eqb (lit "15/03/2024") today' = false)
        by (apply jstring_eqb_neq; congruence).
      now rewrite E.
    + rewrite Express_data, scenario_lines by reflexivity.
      repeat match goal with
             | H : Forall _ (_ :: _) |- _ => inversion_clear H
             end.
      cbn [flat_map]. unfold emitted at 1 2 3 4 6.
      rewrite Express_row_trimStart.
      repeat match goal with
             | H : Express.row _ = None |- _ => rewrite H; clear H
             end.
      reflexivity.
Qed.

End Scenario.

Lemma C1_witness :
  let today := lit "1/11/2026" in
  Express.parseCSVData today today
    (scenario (lit "Report") (lit "Gas and power") (lit "") (lit "")
              (lit "Data,Gas,Power") (lit "01/01/2024,10,5"))
  = {| fileDate := lit "15/03/2024";
       data := [ {| date := lit "01/01/2024";
                    gas := Num (10 # 1); power := Num (5 # 1) |} ] |}.
Proof.
  intros today.
  refine (proj1 (proj2 (proj2
    (C1_end_to_end_scenario (lit "Report") (lit "Gas and power") (lit "")
       (lit "") (lit "Data,Gas,Power") _ _ today today))) _ _).
  - repeat constructor.
  - reflexivity.
  - vm_compute. discriminate.
  - repeat constructor.
Defined.

(* ================================================================== *)
(** * The HTTP handlers against the specification *)
(* ================================================================== *)

Lemma includes_energy_data_GET (event : NetlifyHandler.HandlerEvent) :
  includes (NetlifyHandler.path event) (lit "energy-data") = true ->
  NetlifyHandler.httpMethod event = lit "GET" ->
  forall fetched today,
    NetlifyHandler.handler fetched today event
    = match NetlifyHandler.tryBlock fetched today with
      | Ok parsedData =>
          {| statusCode := 200; headers := NetlifyHandler.jsonHeaders;
             body := JsonSheetData parsedData |}
      | Throw error =>
          {| statusCode := 500; headers := NetlifyHandler.jsonHeaders;
             body := JsonObject
                       [ (lit "error", lit "Failed to fetch energy data");
                         (lit "details", errorMessage error) ] |}
      end.
Proof.
  intros Hpath Hmethod fetched today. unfold NetlifyHandler.handler.
  rewrite Hpath, Hmethod. reflexivity.
Qed.

(** C8. A GET on the energy-data endpoint is answered either with status
    200 and, as body, the whole snapshot parsed from the text that was
    fetched, or with status 500 and a structured error body, and nothing in
    between.  The 200 answer with the snapshot is given whenever the fetch
    succeeded with an ok response, its text could be read and (Express) the
    snapshot passed the schema; the 500 answer is given on every failure of
    the fetch, of the reading of the text or of the validation. *)
Theorem C8_full_snapshot_or_error
        (z_number : number -> bool) (z_message : SheetData -> jstring)
        (fetched : Result Response) (today today' : jstring)
        (event : NetlifyHandler.HandlerEvent) :
  (includes (NetlifyHandler.path event) (lit "energy-data") = true ->
   NetlifyHandler.httpMethod event = lit "GET" ->
   let reply := NetlifyHandler.handler fetched today event in
   (forall response csvText,
       fetched = Ok response -> ok response = true ->
       text response = Ok csvText ->
       reply
       = {| statusCode := 200; headers := NetlifyHandler.jsonHeaders;
            body := JsonSheetData (Netlify.parseCSVData today csvText) |})
   /\ ((forall response csvText,
           fetched = Ok response -> ok response = true ->
           text response = Ok csvText -> False) ->
       exists details,
         reply
         = {| statusCode := 500; headers := NetlifyHandler.jsonHeaders;
              body := JsonObject
                        [ (lit "error", lit "Failed to fetch energy data");
                          (lit "details", details) ] |})
   /\ ((exists response csvText,
           fetched = Ok response /\ ok response = true
           /\ text response = Ok csvText
           /\ statusCode reply = 200%N
           /\ body reply = JsonSheetData (Netlify.parseCSVData today csvText))
       \/ (exists details,
              statusCode reply = 500%N
              /\ body reply
                 = JsonObject
                     [ (lit "error", lit "Failed to fetch energy data");
                       (lit "details", details) ])))
  /\ (let reply :=
        ExpressRoute.energyDataRoute z_number z_message fetched today today' in
      (forall response csvText,
          fetched = Ok response -> ok response = true ->
          text response = Ok csvText ->
          forallb (ExpressRoute.energyDataSchema z_number)
                  (data (Express.parseCSVData today today' csvText)) = true ->
          reply
          = {| statusCode := 200; headers := [];
               body := JsonSheetData
                         (Express.parseCSVData today today' csvText) |})
      /\ ((forall response csvText,
              fetched = Ok response -> ok response = true ->
              text response = Ok csvText ->
              forallb (ExpressRoute.energyDataSchema z_number)
                      (data (Express.parseCSVData today today' csvText)) = true ->
              False) ->
          exists error,
            reply
            = {| statusCode := 500; headers := [];
                 body := JsonObject
                           [ (lit "message",
                              lit "Failed to fetch energy data from Google Sheets");
                             (lit "error", error) ] |})
      /\ ((exists response csvText,
              fetched = Ok response /\ ok response = true
              /\ text response = Ok csvText
              /\ ExpressRoute.sheetDataSchema_parse z_number z_message
                   (Express.parseCSVData today today' csvText)
                 = Ok (Express.parseCSVData today today' csvText)
              /\ statusCode reply = 200%N
              /\ body reply
                 = JsonSheetData (Express.parseCSVData today today' csvText))
          \/ (exists error,
                 statusCode reply = 500%N
                 /\ body reply
                    = JsonObject
                        [ (lit "message",
                           lit "Failed to fetch energy data from Google Sheets");
                          (lit "error", error) ]))).
Proof.
  split.
  - intros Hpath Hmethod reply. subst reply.
    rewrite (includes_energy_data_GET event Hpath Hmethod).
    unfold NetlifyHandler.tryBlock.
    destruct fetched as [response|e]; cbn [bind].
    + destruct (ok response) eqn:Hok; cbn [negb].
      * destruct (text response) as [csvText|e] eqn:Htext; cbn [bind].
        -- split; [|split].
           ++ intros r c Hr _ Hc. injection Hr as <-.
              rewrite Htext in Hc. now injection Hc as <-.
           ++ intros Hno. exfalso. now apply (Hno response csvText).
           ++ left. exists response, csvText. repeat split; trivial.
        -- split; [|split].
           ++ intros r c Hr _ Hc. injection Hr as <-. congruence.
           ++ intros _. eexists. reflexivity.
           ++ right. eexists. split; reflexivity.
      * split; [|split].
        -- intros r c Hr Hk _. injection Hr as <-. congruence.
        -- intros _. eexists. reflexivity.
        -- right. eexists. split; reflexivity.
    + split; [|split].
      * intros r c Hr. discriminate Hr.
      * intros _. eexists. reflexivity.
      * right. eexists. split; reflexivity.
  - intros reply. subst reply.
    unfold ExpressRoute.energyDataRoute, ExpressRoute.tryBlock.
    destruct fetched as [response|e]; cbn [bind].
    + destruct (ok response) eqn:Hok; cbn [negb].
      * destruct (text response) as [csvText|e] eqn:Htext; cbn [bind].
        -- unfold ExpressRoute.sheetDataSchema_parse.
           destruct (forallb (ExpressRoute.energyDataSchema z_number)
                       (data (Express.parseCSVData today today' csvText)))
             eqn:Hv; cbn [bind].
           ++ split; [|split].
              ** intros r c Hr _ Hc _. injection Hr as <-.
                 rewrite Htext in Hc. now injection Hc as <-.
              ** intros Hno. exfalso. now apply (Hno response csvText).
              ** left. exists response, csvText.
                 repeat split; trivial; try reflexivity.
                 unfold ExpressRoute.sheetDataSchema_parse. now rewrite Hv.
           ++ split; [|split].
              ** intros r c Hr _ Hc Hc'. injection Hr as <-.
                 rewrite Htext in Hc. injection Hc as <-. congruence.
              ** intros _. eexists. reflexivity.
              ** right. eexists. split; reflexivity.
        -- split; [|split].
           ++ intros r c Hr _ Hc. injection Hr as <-. congruence.
           ++ intros _. eexists. reflexivity.
           ++ right. eexists. split; reflexivity.
      * split; [|split].
        -- intros r c Hr Hk _. injection Hr as <-. congruence.
        -- intros _. eexists. reflexivity.
        -- right. eexists. split; reflexivity.
    + split; [|split].
      * intros r c Hr. discriminate Hr.
      * intros _. eexists. reflexivity.
      * right. eexists. split; reflexivity.
Qed.

Lemma C8_witness :
  let event :=
    {| NetlifyHandler.path := lit "/.netlify/functions/api/energy-data";
       NetlifyHandler.httpMethod := lit "GET" |} in
  let csvText :=
    scenario (lit "h1") (lit "h2") (lit "h3") (lit "h4") (lit "h6")
             (lit "01/01/2024,10,5,0") in
  let sheet :=
    Ok {| ok := true; status := 200; statusText := lit "OK";
          text := Ok csvText |} in
  let gone :=
    Ok {| ok := false; status := 404; statusText := lit "Not Found";
          text := Ok (lit "gone") |} in
  let today := lit "1/11/2026" in
  includes (NetlifyHandler.path event) (lit "energy-data") = true
  /\ NetlifyHandler.handler sheet today event
     = {| statusCode := 200; headers := NetlifyHandler.jsonHeaders;
          body := JsonSheetData (Netlify.parseCSVData today csvText) |}
  /\ ExpressRoute.energyDataRoute (fun x => negb (isNaN x)) (fun _ => [])
       sheet today today
     = {| statusCode := 200; headers := [];
          body := JsonSheetData (Express.parseCSVData today today csvText) |}
  /\ (exists details,
         NetlifyHandler.handler gone today event
         = {| statusCode := 500; headers := NetlifyHandler.jsonHeaders;
              body := JsonObject
                        [ (lit "error", lit "Failed to fetch energy data");
                          (lit "details", details) ] |}).
Proof.
  intros event csvText sheet gone today.
  pose proof (C8_full_snapshot_or_error
                (fun x => negb (isNaN x)) (fun _ => []) sheet today today event)
    as [HN HE].
  pose proof (C8_full_snapshot_or_error
                (fun x => negb (isNaN x)) (fun _ => []) gone today today event)
    as [HG _].
  split; [reflexivity|]. split; [|split].
  - apply (proj1 (HN eq_refl eq_refl) _ csvText eq_refl eq_refl eq_refl).
  - apply (proj1 HE _ csvText eq_refl eq_refl eq_refl). reflexivity.
  - apply (proj1 (proj2 (HG eq_refl eq_refl))).
    intros response c Hr Hok _. injection Hr as <-. discriminate Hok.
Defined.

(** The two answers of the handlers on a sheet that was fetched. *)
Example handlers_answer_200 :
  let event :=
    {| NetlifyHandler.path := lit "/api/energy-data";
       NetlifyHandler.httpMethod := lit "GET" |} in
  let csvText :=
    scenario (lit "h1") (lit "h2") (lit "h3") (lit "h4") (lit "h6")
             (lit "01/01/2024,10,5,0") in
  let fetched :=
    Ok {| ok := true; status := 200; statusText := lit "OK";
          text := Ok csvText |} in
  let today := lit "1/11/2026" in
  NetlifyHandler.handler fetched today event
  = {| statusCode := 200; headers := NetlifyHandler.jsonHeaders;
       body := JsonSheetData (Netlify.parseCSVData today csvText) |}
  /\ ExpressRoute.energyDataRoute (fun x => negb (isNaN x)) (fun _ => [])
       fetched today today
     = {| statusCode := 200; headers := [];
          body := JsonSheetData (Express.parseCSVData today today csvText) |}.
Proof. split; reflexivity. Qed.

(* ================================================================== *)
(** * More on the tokenizer *)
(* ================================================================== *)

Lemma joinWith_cons (sep : char) (f g : jstring) (rest : list jstring) :
  joinWith sep (f :: g :: rest) = f ++ sep :: joinWith sep (g :: rest).
Proof. reflexivity. Qed.

Lemma joinWith_snoc (sep : char) (fs : list jstring) (x : jstring) :
  fs <> [] -> joinWith sep (fs ++ [x]) = joinWith sep fs ++ sep :: x.
Proof.
  induction fs as [|f fs IH]; intros Hne; [congruence|].
  destruct fs as [|g rest]; [reflexivity|].
  change ((f :: g :: rest) ++ [x]) with (f :: g :: (rest ++ [x])).
  rewrite !joinWith_cons.
  change (g :: rest ++ [x]) with ((g :: rest) ++ [x]).
  rewrite IH by discriminate. now rewrite <- app_assoc.
Qed.

Lemma joinWith_grow (sep : char) (fs : list jstring) (x y : jstring) :
  joinWith sep (fs ++ [x ++ y]) = joinWith sep (fs ++ [x]) ++ y.
Proof.
  destruct fs as [|f fs]; [reflexivity|].
  rewrite !joinWith_snoc by discriminate.
  now rewrite <- !app_assoc.
Qed.

Lemma scanLine_joinWith (line : jstring) :
  forall result current inQuotes,
    joinWith comma (scanLine line result current inQuotes)
    = joinWith comma (result ++ [current])
      ++ filter (fun c => negb (c =? dquote)%N) line.
Proof.
  induction line as [|c line IH]; intros result current inQuotes; simpl.
  - now rewrite app_nil_r.
  - destruct (c =? dquote)%N eqn:Eq; simpl; [apply IH|].
    destruct ((c =? comma)%N && negb inQuotes) eqn:Ec.
    + rewrite IH. apply andb_true_iff in Ec as [Ec _].
      apply N.eqb_eq in Ec. subst c.
      rewrite joinWith_snoc by (destruct result; discriminate).
      now rewrite <- app_assoc.
    + rewrite IH, joinWith_grow. now rewrite <- app_assoc.
Qed.

(** X1. Tokenizing loses the quote characters and nothing else: no field
    holds a quote, and the fields joined by commas are the line with its
    quotes removed.  So the quote stripping of the Netlify tokenizer never
    changes a field, and the two tokenizers are the same function. *)
Theorem X1_tokenizer_drops_exactly_the_quotes (line : jstring) :
  Forall (fun f => noQuote f = true) (Express.parseCSVLine line)
  /\ joinWith comma (Express.parseCSVLine line)
     = filter (fun c => negb (c =? dquote)%N) line
  /\ Netlify.parseCSVLine line = Express.parseCSVLine line.
Proof.
  split; [|split].
  - apply scanLine_noQuote; [constructor | reflexivity].
  - unfold Express.parseCSVLine. now rewrite scanLine_joinWith.
  - apply parseCSVLine_variants_agree.
Qed.

Lemma scanLine_count (line : jstring) :
  forall result current inQuotes,
    (length result + 1 <= length (scanLine line result current inQuotes)
     <= length result + 1 + count_occ N.eq_dec line comma)%nat.
Proof.
  induction line as [|c line IH]; intros result current inQuotes.
  - simpl. rewrite length_app. simpl. lia.
  - cbn [scanLine count_occ].
    destruct (c =? dquote)%N eqn:Eq.
    + apply N.eqb_eq in Eq. subst c.
      destruct (N.eq_dec dquote comma) as [E|_]; [discriminate E|]. apply IH.
    + destruct (N.eqb_spec c comma) as [->|Hc]; cbn [andb].
      * destruct (N.eq_dec comma comma) as [_|E]; [|congruence].
        destruct (negb inQuotes).
        -- specialize (IH (result ++ [current]) [] inQuotes).
           rewrite length_app in IH. simpl in IH. lia.
        -- specialize (IH result (current ++ [comma]) inQuotes). lia.
      * destruct (N.eq_dec c comma) as [E|_]; [congruence|]. apply IH.
Qed.

Lemma scanLine_count_noQuote (line : jstring) :
  forall result current,
    noQuote line = true ->
    length (scanLine line result current false)
    = (length result + 1 + count_occ N.eq_dec line comma)%nat.
Proof.
  induction line as [|c line IH]; intros result current Hq.
  - simpl. rewrite length_app. simpl. lia.
  - cbn [scanLine count_occ]. simpl in Hq.
    apply andb_true_iff in Hq as [Hc Hq]. apply negb_true_iff in Hc.
    rewrite Hc. destruct (N.eqb_spec c comma) as [->|Hne]; cbn [andb negb].
    + destruct (N.eq_dec comma comma) as [_|E]; [|congruence].
      rewrite IH by assumption. rewrite length_app. simpl. lia.
    + destruct (N.eq_dec c comma) as [E|_]; [congruence|]. now apply IH.
Qed.

(** X2. A line always yields at least one field and at most one more than
    it has commas; a line without quotes yields exactly one field more
    than it has commas.  In particular the empty line yields one empty
    field and a line without commas yields one field. *)
Theorem X2_field_count (line : jstring) :
  (1 <= length (Express.parseCSVLine line)
   <= 1 + count_occ N.eq_dec line comma)%nat
  /\ (noQuote line = true ->
      length (Express.parseCSVLine line)
      = (1 + count_occ N.eq_dec line comma)%nat)
  /\ (noComma line = true ->
      Express.parseCSVLine line
      = [filter (fun c => negb (c =? dquote)%N) line])
  /\ Express.parseCSVLine [] = [[]].
Proof.
  unfold Express.parseCSVLine. split; [|split; [|split]].
  - pose proof (scanLine_count line [] [] false) as H. simpl in H. lia.
  - intros H. now rewrite scanLine_count_noQuote.
  - intros H.
    pose proof (scanLine_count line [] [] false) as Hlen.
    pose proof (scanLine_joinWith line [] [] false) as Hjoin.
    assert (Hz : count_occ N.eq_dec line comma = 0%nat).
    { apply count_occ_not_In. intros Hin.
      unfold noComma in H. rewrite forallb_forall in H.
      specialize (H _ Hin). now rewrite N.eqb_refl in H. }
    rewrite Hz in Hlen. simpl in Hlen, Hjoin.
    destruct (scanLine line [] [] false) as [|f [|g rest]];
      simpl in Hlen; try lia.
    simpl in Hjoin. now rewrite Hjoin.
  - reflexivity.
Qed.

Lemma X2_witness :
  length (Express.parseCSVLine (lit "a,b,,d")) = 4%nat
  /\ Express.parseCSVLine (lit "ab" ++ [dquote; dquote] ++ lit "cd")
     = [lit "abcd"].
Proof.
  split.
  - apply (proj1 (proj2 (X2_field_count (lit "a,b,,d")))). reflexivity.
  - apply (proj1 (proj2 (proj2 (X2_field_count
             (lit "ab" ++ [dquote; dquote] ++ lit "cd"))))). reflexivity.
Defined.

Lemma scanLine_quoted_fields (f : jstring) (fs : list jstring) :
  forall result,
    Forall (fun x => noQuote x = true) (f :: fs) ->
    scanLine (joinWith comma (map quoted (f :: fs))) result [] false
    = result ++ f :: fs.
Proof.
  revert f. induction fs as [|g fs IH]; intros f result H;
    inversion H as [|? ? Hf Hfs]; subst.
  - simpl. rewrite scanLine_inside by assumption. reflexivity.
  - change (map quoted (f :: g :: fs))
      with (quoted f :: quoted g :: map quoted fs).
    rewrite joinWith_cons.
    change (quoted g :: map quoted fs) with (map quoted (g :: fs)).
    unfold quoted at 1. cbn [app scanLine]. rewrite N.eqb_refl. cbn [negb].
    rewrite <- app_assoc. rewrite scanLine_inside by assumption.
    cbn [app scanLine]. rewrite N.eqb_refl.
    change ((comma =? dquote)%N) with false.
    change ((comma =? comma)%N && negb (negb true)) with true. cbv iota.
    change (negb true) with false.
    rewrite (IH g (result ++ [f]) Hfs). now rewrite <- app_assoc.
Qed.

Lemma scanLine_plain_fields (f : jstring) (fs : list jstring) :
  forall result current,
    Forall (fun x => noQuote x = true /\ noComma x = true) (f :: fs) ->
    scanLine (joinWith comma (f :: fs)) result current false
    = result ++ (current ++ f) :: fs.
Proof.
  revert f. induction fs as [|g fs IH]; intros f result current H;
    inversion H as [|? ? [Hq Hc] Hfs]; subst.
  - simpl. pose proof (scanLine_outside f [] result current Hq Hc) as E.
    rewrite app_nil_r in E. exact E.
  - rewrite joinWith_cons, scanLine_outside by assumption.
    cbn [scanLine]. change ((comma =? dquote)%N) with false.
    change ((comma =? comma)%N && negb false) with true. cbv iota.
    transitivity ((result ++ [current ++ f]) ++ ([] ++ g) :: fs);
      [now apply IH | now rewrite <- app_assoc].
Qed.

(** X3. Tokenizing is a left inverse of writing a row: fields that hold no
    quote, each written between quotes and joined by commas, are read back
    as they were, whatever commas they hold; fields that hold neither
    quote nor comma are read back when joined as they are. *)
Theorem X3_tokenizer_round_trip (f : jstring) (fs : list jstring) :
  (Forall (fun x => noQuote x = true) (f :: fs) ->
   Express.parseCSVLine (joinWith comma (map quoted (f :: fs))) = f :: fs
   /\ Netlify.parseCSVLine (joinWith comma (map quoted (f :: fs))) = f :: fs)
  /\ (Forall (fun x => noQuote x = true /\ noComma x = true) (f :: fs) ->
      Express.parseCSVLine (joinWith comma (f :: fs)) = f :: fs
      /\ Netlify.parseCSVLine (joinWith comma (f :: fs)) = f :: fs).
Proof.
  split; intros H; rewrite parseCSVLine_variants_agree;
    unfold Express.parseCSVLine.
  - split; now apply (scanLine_quoted_fields f fs []).
  - split; now apply (scanLine_plain_fields f fs [] []).
Qed.

Lemma X3_witness :
  Express.parseCSVLine
    (joinWith comma (map quoted [lit "01/01/2024"; lit "1,5"; lit ""; lit "x"]))
  = [lit "01/01/2024"; lit "1,5"; lit ""; lit "x"]
  /\ Express.parseCSVLine (joinWith comma [lit "01/01/2024"; lit "10"; lit "5"])
     = [lit "01/01/2024"; lit "10"; lit "5"].
Proof.
  split.
  - apply (proj1 (X3_tokenizer_round_trip (lit "01/01/2024")
                    [lit "1,5"; lit ""; lit "x"])).
    repeat constructor.
  - apply (proj2 (X3_tokenizer_round_trip (lit "01/01/2024")
                    [lit "10"; lit "5"])).
    repeat constructor.
Defined.

(* ================================================================== *)
(** * More on the number normalizers *)
(* ================================================================== *)

Lemma takeWhile_app_stop (p : char -> bool) (w y : jstring) (c : char) :
  p c = false -> takeWhile p (w ++ c :: y) = takeWhile p w.
Proof.
  intros Hc. induction w as [|a w IH]; simpl.
  - now rewrite Hc.
  - destruct (p a); [now rewrite IH | reflexivity].
Qed.

Lemma dropWhile_app_keep (p : char -> bool) (w y : jstring) (c : char) :
  p c = false -> dropWhile p (w ++ c :: y) = dropWhile p w ++ c :: y.
Proof.
  intros Hc. induction w as [|a w IH]; simpl.
  - now rewrite Hc.
  - destruct (p a); [exact IH | reflexivity].
Qed.

Lemma startsWith_app_stop (t v y : jstring) (c : char) :
  existsb (N.eqb c) t = false ->
  startsWith t (v ++ c :: y) = startsWith t v.
Proof.
  revert v. induction t as [|a t IH]; intros v H; [now destruct v|].
  simpl in H. apply orb_false_iff in H as [Ha Ht].
  destruct v as [|b v]; simpl.
  - rewrite N.eqb_sym, Ha. reflexivity.
  - now rewrite IH.
Qed.

Section Stop.

(** A period or a comma ends every numeric literal that already holds a
    period. *)
Variable c : char.
Hypothesis c_stops : c = period \/ c = comma.

Lemma stop_not_digit : isDigit c = false.
Proof. destruct c_stops; subst; reflexivity. Qed.

Lemma signedInteger_stop (f y : jstring) :
  signedInteger (f ++ c :: y) = signedInteger f.
Proof.
  unfold signedInteger. destruct f as [|s f]; simpl.
  - destruct c_stops; subst; reflexivity.
  - destruct (s =? plus_sign)%N; [|destruct (s =? minus_sign)%N];
      now rewrite (takeWhile_app_stop _ _ _ _ stop_not_digit).
Qed.

Lemma exponentPart_stop (f y : jstring) :
  exponentPart (f ++ c :: y) = exponentPart f.
Proof.
  unfold exponentPart. destruct f as [|e f]; simpl.
  - destruct c_stops; subst; reflexivity.
  - destruct (isExponentIndicator e); [|reflexivity].
    now rewrite signedInteger_stop.
Qed.

Lemma unsignedDecimal_stop (v y : jstring) :
  dropWhile isDigit v <> [] ->
  unsignedDecimal (v ++ c :: y) = unsignedDecimal v.
Proof.
  intros Hv. unfold unsignedDecimal.
  rewrite (takeWhile_app_stop _ _ _ _ stop_not_digit).
  rewrite (dropWhile_app_keep _ _ _ _ stop_not_digit).
  destruct (dropWhile isDigit v) as [|h d]; [congruence|].
  cbn [app tl]. destruct (h =? period)%N.
  - rewrite (takeWhile_app_stop _ _ _ _ stop_not_digit).
    rewrite (dropWhile_app_keep _ _ _ _ stop_not_digit).
    now rewrite exponentPart_stop.
  - change (h :: d ++ c :: y) with ((h :: d) ++ c :: y).
    now rewrite exponentPart_stop.
Qed.

Lemma period_stays (v : jstring) (p : char -> bool) :
  p period = false ->
  existsb (N.eqb period) v = true ->
  existsb (N.eqb period) (dropWhile p v) = true /\ dropWhile p v <> [].
Proof.
  intros Hp. induction v as [|a v IH]; cbn [existsb dropWhile];
    [discriminate|].
  destruct (p a) eqn:Ea.
  - intros H. apply orb_true_iff in H as [H|H]; [|now apply IH].
    apply N.eqb_eq in H. subst a. congruence.
  - intros H. cbn [existsb]. split; [exact H | discriminate].
Qed.

Lemma parseFloat_stop (v y : jstring) :
  existsb (N.eqb period) v = true ->
  parseFloat (v ++ c :: y) = parseFloat v.
Proof.
  intros Hv. unfold parseFloat, trimStart.
  destruct (period_stays v isWhiteSpace eq_refl Hv) as [Ht Hne].
  assert (Hblank : forallb isWhiteSpace v = false).
  { destruct (forallb isWhiteSpace v) eqn:E; trivial.
    apply dropWhile_all in E. congruence. }
  rewrite (dropWhile_app_stop _ _ _ Hblank).
  destruct (dropWhile isWhiteSpace v) as [|h t]; [congruence|].
  assert (Hinf : existsb (N.eqb c) (lit "Infinity") = false)
    by (destruct c_stops; subst; reflexivity).
  assert (Hcut : forall u,
             existsb (N.eqb period) u = true ->
             (if startsWith (lit "Infinity") (u ++ c :: y)
              then Infinity false
              else match unsignedDecimal (u ++ c :: y) with
                   | None => NaN
                   | Some q => Num q
                   end)
             = (if startsWith (lit "Infinity") u
                then Infinity false
                else match unsignedDecimal u with
                     | None => NaN
                     | Some q => Num q
                     end)
             /\ (if startsWith (lit "Infinity") (u ++ c :: y)
                 then Infinity true
                 else match unsignedDecimal (u ++ c :: y) with
                      | None => NaN
                      | Some q => Num (Qopp q)
                      end)
                = (if startsWith (lit "Infinity") u
                   then Infinity true
                   else match unsignedDecimal u with
                        | None => NaN
                        | Some q => Num (Qopp q)
                        end)).
  { intros u Hu. rewrite (startsWith_app_stop _ _ _ _ Hinf).
    rewrite unsignedDecimal_stop; [split; reflexivity|].
    now apply (period_stays u isDigit eq_refl). }
  cbn [app]. cbn [existsb] in Ht.
  destruct (h =? plus_sign)%N eqn:Ep.
  - apply N.eqb_eq in Ep. subst h. simpl in Ht. now apply Hcut.
  - destruct (h =? minus_sign)%N eqn:Em.
    + apply N.eqb_eq in Em. subst h. simpl in Ht. now apply Hcut.
    + change (h :: t ++ c :: y) with ((h :: t) ++ c :: y).
      now apply (Hcut (h :: t)).
Qed.

End Stop.

Lemma parseFloat_later_commas (w b : jstring) :
  existsb (N.eqb period) w = true ->
  parseFloat (w ++ replaceAllCommas b) = parseFloat (w ++ b).
Proof.
  revert w. induction b as [|x b IH]; intros w Hw; [reflexivity|].
  cbn [replaceAllCommas map]. fold (replaceAllCommas b).
  destruct (N.eqb_spec x comma) as [->|Hx].
  - rewrite (parseFloat_stop period (or_introl eq_refl)) by assumption.
    now rewrite (parseFloat_stop comma (or_intror eq_refl)).
  - change (w ++ x :: replaceAllCommas b)
      with (w ++ [x] ++ replaceAllCommas b).
    change (w ++ x :: b) with (w ++ [x] ++ b).
    rewrite !app_assoc. apply IH.
    rewrite existsb_app. apply orb_true_iff. now left.
Qed.

Lemma parseFloat_all_or_first_comma (t : jstring) :
  parseFloat (replaceAllCommas t) = parseFloat (replaceFirstComma t).
Proof.
  assert (G : forall a, parseFloat (a ++ replaceAllCommas t)
                        = parseFloat (a ++ replaceFirstComma t)).
  { induction t as [|x t IH]; intros a; [reflexivity|].
    cbn [replaceAllCommas map replaceFirstComma]. fold (replaceAllCommas t).
    destruct (x =? comma)%N.
    - change (a ++ period :: replaceAllCommas t)
        with (a ++ [period] ++ replaceAllCommas t).
      change (a ++ period :: t) with (a ++ [period] ++ t).
      rewrite !app_assoc. apply parseFloat_later_commas.
      rewrite existsb_app. apply orb_true_iff. now right.
    - change (a ++ x :: replaceAllCommas t)
        with (a ++ [x] ++ replaceAllCommas t).
      change (a ++ x :: replaceFirstComma t)
        with (a ++ [x] ++ replaceFirstComma t).
      rewrite !app_assoc. apply IH. }
  exact (G []).
Qed.

Lemma removeSpaces_replaceAllCommas (s : jstring) :
  removeSpaces (replaceAllCommas s) = replaceAllCommas (removeSpaces s).
Proof.
  induction s as [|c s IH]; [reflexivity|].
  unfold removeSpaces, replaceAllCommas in *. cbn [map filter].
  destruct (N.eqb_spec c comma) as [->|Hc].
  - change (isWhiteSpace period) with false.
    change (isWhiteSpace comma) with false. cbn [negb map].
    rewrite N.eqb_refl. now rewrite IH.
  - destruct (isWhiteSpace c); cbn [negb map]; [exact IH|].
    destruct (N.eqb_spec c comma); [congruence|]. now rewrite IH.
Qed.

Lemma removeQuotesAndSpaces_noQuote (s : jstring) :
  noQuote s = true -> removeQuotesAndSpaces s = removeSpaces s.
Proof.
  induction s as [|c s IH]; [reflexivity|]. simpl. intros H.
  apply andb_true_iff in H as [Hc Hs]. apply negb_true_iff in Hc.
  rewrite Hc. simpl. now rewrite IH.
Qed.

Lemma removeSpaces_nil_blank (s : jstring) :
  isEmpty (removeSpaces s) = isBlank s.
Proof.
  induction s as [|c s IH]; [reflexivity|]. simpl.
  destruct (isWhiteSpace c); simpl; [exact IH | reflexivity].
Qed.

Lemma normalizers_agree (str : jstring) :
  noQuote str = true ->
  Netlify.parseNumber str = Express.parseItalianNumber str.
Proof.
  intros Hq. unfold Netlify.parseNumber, Express.parseItalianNumber.
  rewrite (removeQuotesAndSpaces_noQuote _ Hq), removeSpaces_nil_blank.
  rewrite removeSpaces_replaceAllCommas, parseFloat_all_or_first_comma.
  destruct (jstring_eqb (trim str) []) eqn:Et.
  - apply jstring_eqb_eq, trim_nil_blank in Et. rewrite Et, orb_true_r.
    now destruct (isEmpty str).
  - apply jstring_eqb_neq in Et.
    assert (Hb : isBlank str = false).
    { destruct (isBlank str) eqn:E; trivial.
      apply trim_blank in E. congruence. }
    rewrite Hb, orb_false_r. destruct str; [discriminate Hb | reflexivity].
Qed.

(** X4. On a cell that holds no quote the two number normalizers return
    the same number, although one rewrites every comma and the other only
    the first: nothing after a second separator is ever read.  Every field
    either tokenizer yields is such a cell. *)
Theorem X4_normalizers_agree_on_fields :
  (forall str, noQuote str = true ->
               Netlify.parseNumber str = Express.parseItalianNumber str)
  /\ (forall line,
         map Netlify.parseNumber (Netlify.parseCSVLine line)
         = map Express.parseItalianNumber (Express.parseCSVLine line)).
Proof.
  split; [exact normalizers_agree|].
  intros line. rewrite parseCSVLine_variants_agree.
  apply map_ext_in. intros f Hf. apply normalizers_agree.
  pose proof (scanLine_noQuote line [] [] false (Forall_nil _) eq_refl) as H.
  rewrite Forall_forall in H. now apply H.
Qed.

Lemma X4_witness :
  Netlify.parseNumber (lit " 1,5,7 ") = Express.parseItalianNumber (lit " 1,5,7 ")
  /\ Express.parseItalianNumber (lit " 1,5,7 ") = Num (3 # 2).
Proof.
  split; [|reflexivity].
  apply (proj1 X4_normalizers_agree_on_fields (lit " 1,5,7 ")). reflexivity.
Defined.

Lemma parseItalianNumber_cleaned (str : jstring) :
  Express.parseItalianNumber str
  = if isEmpty (removeQuotesAndSpaces str) then zero
    else
      let num := parseFloat (replaceFirstComma (removeQuotesAndSpaces str)) in
      if isNaN num then zero else num.
Proof.
  unfold Express.parseItalianNumber. now destruct str.
Qed.

Lemma parseNumber_cleaned (str : jstring) :
  Netlify.parseNumber str
  = if isEmpty (removeSpaces str) then zero
    else
      let num := parseFloat (replaceAllCommas (removeSpaces str)) in
      if isNaN num then zero else num.
Proof.
  unfold Netlify.parseNumber.
  rewrite removeSpaces_replaceAllCommas, removeSpaces_nil_blank.
  destruct (jstring_eqb (trim str) []) eqn:Et.
  - apply jstring_eqb_eq, trim_nil_blank in Et. now rewrite Et, orb_true_r.
  - apply jstring_eqb_neq in Et.
    assert (Hb : isBlank str = false).
    { destruct (isBlank str) eqn:E; trivial.
      apply trim_blank in E. congruence. }
    rewrite Hb, orb_false_r. destruct str; [discriminate Hb | reflexivity].
Qed.

(** X5. White space anywhere in a cell counts for nothing: two cells
    with the same characters once white space is removed (and, for the
    Express normalizer, once quotes are removed too) normalize to the same
    number. *)
Theorem X5_white_space_is_ignored (s1 s2 : jstring) :
  (removeSpaces s1 = removeSpaces s2 ->
   Netlify.parseNumber s1 = Netlify.parseNumber s2)
  /\ (removeQuotesAndSpaces s1 = removeQuotesAndSpaces s2 ->
      Express.parseItalianNumber s1 = Express.parseItalianNumber s2).
Proof.
  split; intros H.
  - now rewrite !parseNumber_cleaned, H.
  - now rewrite !parseItalianNumber_cleaned, H.
Qed.

Lemma X5_witness :
  Netlify.parseNumber (lit " 1 234,5 ") = Netlify.parseNumber (lit "1234,5")
  /\ Express.parseItalianNumber (quoted (lit "1 234,5"))
     = Express.parseItalianNumber (lit "1234,5")
  /\ Express.parseItalianNumber (lit "1234,5") = Num (2469 # 2).
Proof.
  split; [|split; [|reflexivity]].
  - apply (proj1 (X5_white_space_is_ignored (lit " 1 234,5 ") (lit "1234,5"))).
    reflexivity.
  - apply (proj2 (X5_white_space_is_ignored (quoted (lit "1 234,5"))
                    (lit "1234,5"))).
    reflexivity.
Defined.

(* ================================================================== *)
(** * The shape of a strict date *)
(* ================================================================== *)

Lemma matches_Or (s : jstring) :
  forall a b, matches (Or a b) s = matches a s || matches b s.
Proof.
  induction s as [|c s IH]; intros a b; simpl; [reflexivity | apply IH].
Qed.

Lemma matches_Cat_cons (a b : regex) (c : char) (s : jstring) :
  matches (Cat a b) (c :: s)
  = matches (Cat (deriv a c) b) s || (nullable a && matches b (c :: s)).
Proof.
  simpl. destruct (nullable a); simpl.
  - apply matches_Or.
  - now rewrite orb_false_r.
Qed.

Lemma matches_Cat (s : jstring) :
  forall a b,
    matches (Cat a b) s = true <->
    exists s1 s2, s = s1 ++ s2 /\ matches a s1 = true /\ matches b s2 = true.
Proof.
  induction s as [|c s IH]; intros a b.
  - simpl. rewrite andb_true_iff. split.
    + intros [Ha Hb]. now exists [], [].
    + intros (s1 & s2 & E & Ha & Hb).
      symmetry in E. apply app_eq_nil in E as [-> ->]. now split.
  - rewrite matches_Cat_cons, orb_true_iff, andb_true_iff, IH. split.
    + intros [(s1 & s2 & -> & Ha & Hb) | [Ha Hb]].
      * now exists (c :: s1), s2.
      * now exists [], (c :: s).
    + intros (s1 & s2 & E & Ha & Hb). destruct s1 as [|c1 s1].
      * right. simpl in E. subst s2. now split.
      * left. injection E as <- ->. now exists s1, s2.
Qed.

Lemma matches_Epsilon (s : jstring) : matches Epsilon s = true <-> s = [].
Proof.
  destruct s as [|c s]; simpl; [tauto|].
  rewrite matches_dead by reflexivity. split; discriminate.
Qed.

Lemma matches_Class (p : char -> bool) (s : jstring) :
  matches (Class p) s = true <-> exists c, s = [c] /\ p c = true.
Proof.
  destruct s as [|c s]; simpl.
  - split; [discriminate | intros (c & E & _); discriminate E].
  - destruct (p c) eqn:Ep.
    + rewrite matches_Epsilon. split.
      * intros ->. now exists c.
      * intros (c' & E & _). now injection E.
    + rewrite matches_dead by reflexivity. split; [discriminate|].
      intros (c' & E & Hc). injection E as -> _. congruence.
Qed.

Lemma matches_Class_Cat (p : char -> bool) (r : regex) (s : jstring) :
  matches (Cat (Class p) r) s = true <->
  exists c s', s = c :: s' /\ p c = true /\ matches r s' = true.
Proof.
  rewrite matches_Cat. split.
  - intros (s1 & s2 & -> & H1 & H2).
    apply matches_Class in H1 as (c & -> & Hc). now exists c, s2.
  - intros (c & s' & -> & Hc & Hr). exists [c], s'.
    repeat split; trivial. apply matches_Class. now exists c.
Qed.

Lemma matches_digit_2 (r : regex) (s : jstring) :
  matches (Cat digit_2 r) s = true <->
  exists a b s', s = a :: b :: s' /\ isDigit a = true /\ isDigit b = true
                 /\ matches r s' = true.
Proof.
  rewrite matches_Cat. split.
  - intros (s1 & s2 & -> & H1 & H2).
    apply matches_Class_Cat in H1 as (a & t & -> & Ha & Ht).
    apply matches_Class in Ht as (b & -> & Hb). now exists a, b, s2.
  - intros (a & b & s' & -> & Ha & Hb & Hr). exists [a; b], s'.
    repeat split; trivial. apply matches_Class_Cat. exists a, [b].
    repeat split; trivial. apply matches_Class. now exists b.
Qed.

Lemma matches_digit_4 (s : jstring) :
  matches digit_4 s = true <->
  exists a b c d, s = [a; b; c; d] /\ forallb isDigit [a; b; c; d] = true.
Proof.
  unfold digit_4. split.
  - intros H.
    apply matches_Class_Cat in H as (a & s1 & -> & Ha & H).
    apply matches_Class_Cat in H as (b & s2 & -> & Hb & H).
    apply matches_Class_Cat in H as (c & s3 & -> & Hc & H).
    apply matches_Class in H as (d & -> & Hd).
    exists a, b, c, d. split; trivial. simpl. now rewrite Ha, Hb, Hc, Hd.
  - intros (a & b & c & d & -> & H). simpl in H.
    repeat (apply andb_true_iff in H as [? H]).
    apply matches_Class_Cat. exists a, [b; c; d]. repeat split; trivial.
    apply matches_Class_Cat. exists b, [c; d]. repeat split; trivial.
    apply matches_Class_Cat. exists c, [d]. repeat split; trivial.
    apply matches_Class. now exists d.
Qed.

Lemma strictDate_shape (s : jstring) :
  matches strictDate s = true <->
  exists d1 d2 m1 m2 y1 y2 y3 y4,
    s = ddmmyyyy d1 d2 m1 m2 y1 y2 y3 y4
    /\ forallb isDigit [d1; d2; m1; m2; y1; y2; y3; y4] = true.
Proof.
  unfold strictDate, ddmmyyyy. split.
  - intros H.
    apply matches_digit_2 in H as (d1 & d2 & s1 & -> & H1 & H2 & H).
    apply matches_Class_Cat in H as (c1 & s2 & -> & Hc1 & H).
    apply matches_digit_2 in H as (m1 & m2 & s3 & -> & H3 & H4 & H).
    apply matches_Class_Cat in H as (c2 & s4 & -> & Hc2 & H).
    apply matches_digit_4 in H as (y1 & y2 & y3 & y4 & -> & Hy).
    apply N.eqb_eq in Hc1, Hc2. subst c1 c2.
    exists d1, d2, m1, m2, y1, y2, y3, y4. split; trivial.
    cbn [forallb] in *. now rewrite H1, H2, H3, H4.
  - intros (d1 & d2 & m1 & m2 & y1 & y2 & y3 & y4 & -> & H).
    cbn [forallb] in H.
    apply andb_true_iff in H as [H1 H]. apply andb_true_iff in H as [H2 H].
    apply andb_true_iff in H as [H3 H]. apply andb_true_iff in H as [H4 H].
    apply matches_digit_2. exists d1, d2, [47; m1; m2; 47; y1; y2; y3; y4]%N.
    repeat split; trivial.
    apply matches_Class_Cat. exists 47%N, [m1; m2; 47; y1; y2; y3; y4]%N.
    repeat split; trivial.
    apply matches_digit_2. exists m1, m2, [47; y1; y2; y3; y4]%N.
    repeat split; trivial.
    apply matches_Class_Cat. exists 47%N, [y1; y2; y3; y4].
    repeat split; trivial.
    apply matches_digit_4. exists y1, y2, y3, y4. split; trivial.
Qed.

(** X6. The strict date pattern of the Express row loop accepts exactly
    the strings of ten characters DD/MM/YYYY made of eight digits and two
    slashes, and every record the Express parser returns carries such a
    date. *)
Theorem X6_express_dates_are_strict (today today' csvText : jstring) :
  (forall s,
      matches strictDate s = true <->
      exists d1 d2 m1 m2 y1 y2 y3 y4,
        s = ddmmyyyy d1 d2 m1 m2 y1 y2 y3 y4
        /\ forallb isDigit [d1; d2; m1; m2; y1; y2; y3; y4] = true)
  /\ Forall (fun r =>
               exists d1 d2 m1 m2 y1 y2 y3 y4,
                 date r = ddmmyyyy d1 d2 m1 m2 y1 y2 y3 y4
                 /\ forallb isDigit [d1; d2; m1; m2; y1; y2; y3; y4] = true)
            (data (Express.parseCSVData today today' csvText)).
Proof.
  split; [exact strictDate_shape|].
  rewrite Express_data. apply Forall_flat_map, Forall_forall.
  intros line _. unfold emitted.
  destruct (Express.row line) eqn:E; constructor; trivial.
  apply strictDate_shape. now apply (Express_row_date line).
Qed.

Lemma X6_witness :
  exists d1 d2 m1 m2 y1 y2 y3 y4,
    lit "01/01/2024" = ddmmyyyy d1 d2 m1 m2 y1 y2 y3 y4
    /\ forallb isDigit [d1; d2; m1; m2; y1; y2; y3; y4] = true.
Proof.
  apply (proj1 (proj1 (X6_express_dates_are_strict [] [] [])
                      (lit "01/01/2024"))).
  reflexivity.
Defined.

(* ================================================================== *)
(** * The two row loops side by side *)
(* ================================================================== *)

Lemma trim_strictDate (s : jstring) :
  matches strictDate s = true -> trim s = s.
Proof.
  intros H.
  apply strictDate_shape in H
    as (d1 & d2 & m1 & m2 & y1 & y2 & y3 & y4 & -> & H).
  cbn [forallb] in H.
  assert (H1 : isDigit d1 = true) by (now apply andb_true_iff in H as [? _]).
  assert (H8 : isDigit y4 = true).
  { do 7 (apply andb_true_iff in H as [_ H]).
    now apply andb_true_iff in H as [? _]. }
  unfold ddmmyyyy.
  change [d1; d2; 47; m1; m2; 47; y1; y2; y3; y4]%N
    with ([d1] ++ [d2; 47; m1; m2; 47; y1; y2; y3]%N ++ [y4]).
  rewrite trim_framed.
  - unfold trimStart. cbn [dropWhile]. now rewrite (digit_not_space _ H1).
  - unfold isBlank. cbn [forallb]. now rewrite (digit_not_space _ H1).
  - now apply digit_not_space.
Qed.

Lemma field_noQuote (line : jstring) (i : nat) :
  noQuote (nth i (Express.parseCSVLine line) []) = true.
Proof.
  pose proof (scanLine_noQuote line [] [] false (Forall_nil _) eq_refl) as H.
  rewrite Forall_forall in H.
  destruct (Nat.lt_ge_cases i (length (Express.parseCSVLine line))) as [Hi|Hi].
  - apply H. now apply nth_In.
  - now rewrite nth_overflow.
Qed.

(** X7. The two row loops read the second and third columns the other
    way round: on a line without surrounding white space and with at
    least four fields, whenever the Express loop emits a record the
    Netlify loop emits the record with the same date and with gas and
    power exchanged. *)
Theorem X7_variants_exchange_gas_and_power (line : jstring) (r : EnergyData) :
  trim line = line ->
  (4 <= length (Express.parseCSVLine line))%nat ->
  Express.row line = Some r ->
  Netlify.row line
  = Some {| date := date r; gas := power r; power := gas r |}.
Proof.
  intros Ht Hlen Hr.
  destruct (Express_row_date line r Hr) as [_ Hdate].
  assert (Hnone : Express.row line <> None) by congruence.
  rewrite Express_row_skipped in Hnone. rewrite Ht in Hnone.
  assert (Hb : isBlank line = false)
    by (destruct (isBlank line); [exfalso; apply Hnone; now left | trivial]).
  assert (Hm : matches strictDate (nth 0 (Express.parseCSVLine line) []) = true).
  { destruct (matches strictDate (nth 0 (Express.parseCSVLine line) []))
      eqn:M; trivial.
    exfalso. apply Hnone. right. right. reflexivity. }
  unfold Express.row in Hr. rewrite Ht in Hr.
  rewrite <- (isEmpty_trim line), Ht in Hb. rewrite Hb in Hr.
  assert (H3 : (3 <=? length (Express.parseCSVLine line))%nat = true)
    by (apply Nat.leb_le; lia).
  rewrite H3, Hm in Hr.
  destruct (strictDate_head _ Hm) as (c & t & E & _).
  rewrite E in Hr at 1. cbn [isEmpty orb negb] in Hr.
  rewrite !parseItalianNumber_not_NaN in Hr. cbn [negb andb] in Hr.
  injection Hr as <-. cbn [date gas power].
  unfold Netlify.row. rewrite Ht, Hb, parseCSVLine_variants_agree.
  assert (H4 : (length (Express.parseCSVLine line) <? 4)%nat = false)
    by (apply Nat.ltb_ge; lia).
  rewrite H4, (trim_strictDate _ Hm). rewrite E at 1. cbn [isEmpty orb].
  now rewrite !normalizers_agree by apply field_noQuote.
Qed.

Lemma X7_witness :
  Netlify.row (lit "01/01/2024,10,5,0")
  = Some {| date := lit "01/01/2024";
            gas := Num (5 # 1); power := Num (10 # 1) |}
  /\ Express.row (lit "01/01/2024,10,5,0")
     = Some {| date := lit "01/01/2024";
               gas := Num (10 # 1); power := Num (5 # 1) |}.
Proof.
  split; [|reflexivity].
  apply (X7_variants_exchange_gas_and_power (lit "01/01/2024,10,5,0")
           {| date := lit "01/01/2024";
              gas := Num (10 # 1); power := Num (5 # 1) |}).
  - reflexivity.
  - vm_compute. lia.
  - reflexivity.
Defined.

(* ================================================================== *)
(** * Edge cases of the parsers *)
(* ================================================================== *)



Lemma textLines_blank (csvText : jstring) :
  isBlank csvText = true -> textLines csvText = [[]].
Proof. intros H. unfold textLines. now rewrite (trim_blank _ H). Qed.

(** X9. Short inputs.  A text of at most six lines yields no record in
    the Netlify parser, and one of fewer than five lines yields today's
    date as file date.  On a blank text (empty or all white space) both
    parsers return today's date and no record. *)
Theorem X9_short_and_blank_texts (today today' csvText : jstring) :
  ((length (textLines csvText) <= 6)%nat ->
   data (Netlify.parseCSVData today csvText) = [])
  /\ ((length (textLines csvText) < 5)%nat ->
      fileDate (Netlify.parseCSVData today csvText) = today)
  /\ (isBlank csvText = true ->
      Netlify.parseCSVData today csvText
      = {| fileDate := today; data := [] |}
      /\ Express.parseCSVData today today' csvText
         = {| fileDate := today; data := [] |}).
Proof.
  split; [|split].
  - intros H. rewrite Netlify_data. now rewrite skipn_all2.
  - intros H. rewrite Netlify_fileDate. unfold validDateCell.
    assert (E : (4 <? length (textLines csvText))%nat = false)
      by (apply Nat.ltb_ge; lia).
    now rewrite E.
  - intros H. split; apply SheetData_eq.
    + rewrite Netlify_fileDate, (textLines_blank _ H). reflexivity.
    + rewrite Netlify_data, (textLines_blank _ H). reflexivity.
    + rewrite Express_fileDate, (textLines_blank _ H). cbv zeta.
      change (validDateCell [[]] 4 4) with false.
      change (validDateCell [[]] 1 3) with false.
      now rewrite andb_false_r.
    + rewrite Express_data, (textLines_blank _ H). reflexivity.
Qed.

Lemma X9_witness :
  let csvText := joinLines [lit "a"; lit "b"; lit "c"; lit "01/01/2024,1,2,3"] in
  data (Netlify.parseCSVData (lit "1/11/2026") csvText) = []
  /\ fileDate (Netlify.parseCSVData (lit "1/11/2026") csvText) = lit "1/11/2026"
  /\ Express.parseCSVData (lit "1/11/2026") (lit "1/11/2026") (lit "  ")
     = {| fileDate := lit "1/11/2026"; data := [] |}.
Proof.
  intros csvText.
  pose proof (X9_short_and_blank_texts (lit "1/11/2026") (lit "1/11/2026")
                csvText) as (H6 & H5 & _).
  pose proof (X9_short_and_blank_texts (lit "1/11/2026") (lit "1/11/2026")
                (lit "  ")) as (_ & _ & Hb).
  split; [apply H6; vm_compute; lia|].
  split; [apply H5; vm_compute; lia|].
  apply Hb. reflexivity.
Defined.

Lemma dropWhile_app_all (p : char -> bool) (a s : jstring) :
  forallb p a = true -> dropWhile p (a ++ s) = dropWhile p s.
Proof.
  induction a as [|c a IH]; simpl; trivial.
  intros H. apply andb_true_iff in H as [Hc Ha]. rewrite Hc. auto.
Qed.

Lemma trim_padded (a s b : jstring) :
  isBlank a = true -> isBlank b = true -> trim (a ++ s ++ b) = trim s.
Proof.
  intros Ha Hb. unfold trim, trimStart.
  rewrite (dropWhile_app_all _ _ _ Ha).
  destruct (forallb isWhiteSpace s) eqn:Es.
  - assert (Hsb : forallb isWhiteSpace (s ++ b) = true)
      by (rewrite forallb_app; now rewrite Es).
    now rewrite (dropWhile_all _ _ Hsb), (dropWhile_all _ _ Es).
  - rewrite (dropWhile_app_stop _ _ _ Es). unfold trimEnd.
    rewrite rev_app_distr, dropWhile_app_all; trivial.
    now rewrite forallb_rev.
Qed.

(** X10. The Express row loop does not see white space around a line: a
    line padded with white space on either side, a carriage return left
    by a CRLF line ending for one, gives the same outcome as the line
    itself. *)
Theorem X10_express_row_ignores_padding (a line b : jstring) :
  isBlank a = true -> isBlank b = true ->
  Express.row (a ++ line ++ b) = Express.row line.
Proof.
  intros Ha Hb. unfold Express.row. now rewrite (trim_padded _ _ _ Ha Hb).
Qed.

Lemma X10_witness :
  Express.row (lit "  01/01/2024,1,2" ++ [13%N])
  = Express.row (lit "01/01/2024,1,2").
Proof.
  apply (X10_express_row_ignores_padding (lit "  ") (lit "01/01/2024,1,2")
           [13%N]); reflexivity.
Defined.

(* ================================================================== *)
(** * More on the HTTP handlers *)
(* ================================================================== *)

(** X11. Routing of the Netlify handler.  An OPTIONS request is answered
    200 with an empty body, whatever its path; a request that is neither
    OPTIONS nor a GET on a path holding energy-data is answered 404 with
    the body error: Not found; neither answer depends on the sheet.
    Every answer carries the three CORS headers and has status 200, 404 or
    500. *)
Theorem X11_netlify_routing (fetched : Result Response) (today : jstring)
        (event : NetlifyHandler.HandlerEvent) :
  let reply := NetlifyHandler.handler fetched today event in
  (NetlifyHandler.httpMethod event = lit "OPTIONS" ->
   reply = {| statusCode := 200; headers := NetlifyHandler.corsHeaders;
              body := EmptyBody |})
  /\ (NetlifyHandler.httpMethod event <> lit "OPTIONS" ->
      includes (NetlifyHandler.path event) (lit "energy-data") = false
      \/ NetlifyHandler.httpMethod event <> lit "GET" ->
      reply = {| statusCode := 404; headers := NetlifyHandler.corsHeaders;
                 body := JsonObject [ (lit "error", lit "Not found") ] |})
  /\ (exists extra, headers reply = NetlifyHandler.corsHeaders ++ extra)
  /\ (statusCode reply = 200 \/ statusCode reply = 404
      \/ statusCode reply = 500)%N.
Proof.
  intros reply. subst reply. unfold NetlifyHandler.handler.
  split; [|split; [|split]].
  - intros ->. reflexivity.
  - intros Hopt Hnot. apply jstring_eqb_neq in Hopt. rewrite Hopt.
    destruct Hnot as [Hp|Hg].
    + now rewrite Hp.
    + apply jstring_eqb_neq in Hg. now rewrite Hg, andb_false_r.
  - destruct (jstring_eqb _ (lit "OPTIONS")); [now exists []|].
    destruct (_ && _); [|now exists []].
    destruct (NetlifyHandler.tryBlock fetched today);
      now exists [(lit "Content-Type", lit "application/json")].
  - destruct (jstring_eqb _ (lit "OPTIONS")); [now left|].
    destruct (_ && _); [|now right; left].
    destruct (NetlifyHandler.tryBlock fetched today);
      [now left | now right; right].
Qed.

Lemma X11_witness :
  NetlifyHandler.handler (Throw OtherValue) []
    {| NetlifyHandler.path := lit "/api/energy-data";
       NetlifyHandler.httpMethod := lit "OPTIONS" |}
  = {| statusCode := 200; headers := NetlifyHandler.corsHeaders;
       body := EmptyBody |}
  /\ NetlifyHandler.handler (Throw OtherValue) []
       {| NetlifyHandler.path := lit "/api/energy-data";
          NetlifyHandler.httpMethod := lit "POST" |}
     = {| statusCode := 404; headers := NetlifyHandler.corsHeaders;
          body := JsonObject [ (lit "error", lit "Not found") ] |}.
Proof.
  split.
  - apply (proj1 (X11_netlify_routing (Throw OtherValue) []
                    {| NetlifyHandler.path := lit "/api/energy-data";
                       NetlifyHandler.httpMethod := lit "OPTIONS" |})).
    reflexivity.
  - apply (proj1 (proj2 (X11_netlify_routing (Throw OtherValue) []
                    {| NetlifyHandler.path := lit "/api/energy-data";
                       NetlifyHandler.httpMethod := lit "POST" |}))).
    + discriminate.
    + right. discriminate.
Defined.

Lemma Express_row_numbers (line : jstring) (r : EnergyData) :
  Express.row line = Some r ->
  isNaN (gas r) = false /\ isNaN (power r) = false.
Proof.
  unfold Express.row.
  destruct (isEmpty (trim line)); [discriminate|].
  destruct (3 <=? length (Express.parseCSVLine (trim line)))%nat;
    [|discriminate].
  destruct (isEmpty _ || negb _); [discriminate|].
  rewrite !parseItalianNumber_not_NaN. cbn [negb andb].
  intros H. injection H as <-. cbn [gas power].
  split; apply parseItalianNumber_not_NaN.
Qed.

(** X12. What the 500 answers say.  On a GET of the energy data: when the
    fetch itself fails, or the text of an ok response cannot be read, the
    message of the error is passed on (the words Unknown error when what
    was thrown is not an Error); when the response is not ok, the detail
    names its status (and, in the Express route, its status text) and the
    body of the response is never parsed.  In the Express route a snapshot
    the schema rejects is answered with the message of the schema error. *)
Theorem X12_error_details
        (z_number : number -> bool) (z_message : SheetData -> jstring)
        (today today' : jstring) (event : NetlifyHandler.HandlerEvent) :
  let netlify fetched := NetlifyHandler.handler fetched today event in
  let express fetched :=
    ExpressRoute.energyDataRoute z_number z_message fetched today today' in
  let netlifyError details :=
    {| statusCode := 500; headers := NetlifyHandler.jsonHeaders;
       body := JsonObject [ (lit "error", lit "Failed to fetch energy data");
                            (lit "details", details) ] |} in
  let expressError error :=
    {| statusCode := 500; headers := [];
       body := JsonObject
                 [ (lit "message",
                    lit "Failed to fetch energy data from Google Sheets");
                   (lit "error", error) ] |} in
  includes (NetlifyHandler.path event) (lit "energy-data") = true ->
  NetlifyHandler.httpMethod event = lit "GET" ->
  (forall e, netlify (Throw e) = netlifyError (errorMessage e)
             /\ express (Throw e) = expressError (errorMessage e))
  /\ (forall st stText txt,
         netlify (Ok {| ok := false; status := st; statusText := stText;
                        text := txt |})
         = netlifyError (lit "HTTP error! status: " ++ N_toString st)
         /\ express (Ok {| ok := false; status := st; statusText := stText;
                           text := txt |})
            = expressError (lit "Failed to fetch Google Sheets data: "
                            ++ N_toString st ++ lit " " ++ stText))
  /\ (forall st stText e,
         netlify (Ok {| ok := true; status := st; statusText := stText;
                        text := Throw e |})
         = netlifyError (errorMessage e)
         /\ express (Ok {| ok := true; status := st; statusText := stText;
                           text := Throw e |})
            = expressError (errorMessage e))
  /\ (forall st stText csvText,
         forallb (ExpressRoute.energyDataSchema z_number)
                 (data (Express.parseCSVData today today' csvText)) = false ->
         express (Ok {| ok := true; status := st; statusText := stText;
                        text := Ok csvText |})
         = expressError
             (z_message (Express.parseCSVData today today' csvText))).
Proof.
  intros netlify express netlifyError expressError Hpath Hmethod.
  subst netlify express netlifyError expressError. cbv beta.
  repeat split; intros;
    rewrite ?(includes_energy_data_GET event Hpath Hmethod);
    try reflexivity.
  unfold ExpressRoute.energyDataRoute, ExpressRoute.tryBlock. cbn [bind ok text negb].
  unfold ExpressRoute.sheetDataSchema_parse. now rewrite H.
Qed.

Lemma X12_witness :
  NetlifyHandler.handler
    (Ok {| ok := false; status := 503; statusText := lit "Service Unavailable";
           text := Ok (lit "01/01/2024,1,2,3") |})
    (lit "1/11/2026")
    {| NetlifyHandler.path := lit "/api/energy-data";
       NetlifyHandler.httpMethod := lit "GET" |}
  = {| statusCode := 500; headers := NetlifyHandler.jsonHeaders;
       body := JsonObject [ (lit "error", lit "Failed to fetch energy data");
                            (lit "details", lit "HTTP error! status: 503") ] |}.
Proof.
  apply (proj1 (proj1 (proj2
           (X12_error_details (fun _ => true) (fun _ => [])
              (lit "1/11/2026") (lit "1/11/2026")
              {| NetlifyHandler.path := lit "/api/energy-data";
                 NetlifyHandler.httpMethod := lit "GET" |}
              eq_refl eq_refl))
           503%N (lit "Service Unavailable") (Ok (lit "01/01/2024,1,2,3")))).
Defined.

(** X13. The snapshot of the Express parser always passes the schema when
    the library accepts every number that is not NaN: so the route answers
    200 with the parsed snapshot on every ok response whose text can be
    read, and a 500 can only come from the fetch. *)
Theorem X13_parsed_snapshot_passes_schema
        (z_number : number -> bool) (z_message : SheetData -> jstring)
        (today today' csvText : jstring) :
  (forall x, isNaN x = false -> z_number x = true) ->
  ExpressRoute.sheetDataSchema_parse z_number z_message
    (Express.parseCSVData today today' csvText)
  = Ok (Express.parseCSVData today today' csvText)
  /\ forall st stText,
      ExpressRoute.energyDataRoute z_number z_message
        (Ok {| ok := true; status := st; statusText := stText;
               text := Ok csvText |}) today today'
      = {| statusCode := 200; headers := [];
           body := JsonSheetData (Express.parseCSVData today today' csvText) |}.
Proof.
  intros Hz.
  assert (Hall : forallb (ExpressRoute.energyDataSchema z_number)
                   (data (Express.parseCSVData today today' csvText)) = true).
  { apply forallb_forall. intros r Hr. rewrite Express_data in Hr.
    apply in_flat_map in Hr as (line & _ & Hin). unfold emitted in Hin.
    destruct (Express.row line) as [r'|] eqn:E; [|contradiction].
    destruct Hin as [<-|[]].
    destruct (Express_row_numbers line r' E) as [Hg Hp].
    unfold ExpressRoute.energyDataSchema. now rewrite (Hz _ Hg), (Hz _ Hp). }
  assert (Hparse : ExpressRoute.sheetDataSchema_parse z_number z_message
                     (Express.parseCSVData today today' csvText)
                   = Ok (Express.parseCSVData today today' csvText)).
  { unfold ExpressRoute.sheetDataSchema_parse. now rewrite Hall. }
  split; [exact Hparse|]. intros st stText.
  unfold ExpressRoute.energyDataRoute, ExpressRoute.tryBlock.
  cbn [bind ok text negb]. now rewrite Hparse.
Qed.

Lemma X13_witness :
  ExpressRoute.energyDataRoute (fun x => negb (isNaN x)) (fun _ => [])
    (Ok {| ok := true; status := 200; statusText := lit "OK";
           text := Ok (lit "01/01/2024,abc,1e999") |})
    (lit "1/11/2026") (lit "1/11/2026")
  = {| statusCode := 200; headers := [];
       body := JsonSheetData
                 (Express.parseCSVData (lit "1/11/2026") (lit "1/11/2026")
                    (lit "01/01/2024,abc,1e999")) |}.
Proof.
  apply (proj2 (X13_parsed_snapshot_passes_schema
                  (fun x => negb (isNaN x)) (fun _ => [])
                  (lit "1/11/2026") (lit "1/11/2026")
                  (lit "01/01/2024,abc,1e999")
                  (fun x H => f_equal negb H))).
Defined.

(* ================================================================== *)
(** * Dates for display *)
(* ================================================================== *)

Lemma split_slash_from_segment (a b cur : jstring) :
  noSlash a = true ->
  Display.split_slash_from (a ++ 47%N :: b) cur
  = (cur ++ a) :: Display.split_slash_from b [].
Proof.
  revert cur. induction a as [|c a IH]; intros cur H; cbn [app].
  - cbn [Display.split_slash_from]. rewrite N.eqb_refl. now rewrite app_nil_r.
  - unfold noSlash in *. cbn [forallb] in H.
    apply andb_true_iff in H as [Hc Ha].
    apply negb_true_iff in Hc. cbn [Display.split_slash_from].
    rewrite Hc, IH by assumption. now rewrite <- app_assoc.
Qed.

Lemma split_slash_from_last (a cur : jstring) :
  noSlash a = true -> Display.split_slash_from a cur = [cur ++ a].
Proof.
  revert cur. induction a as [|c a IH]; intros cur H.
  - cbn. now rewrite app_nil_r.
  - unfold noSlash in *. cbn [forallb] in H.
    apply andb_true_iff in H as [Hc Ha].
    apply negb_true_iff in Hc. cbn [Display.split_slash_from].
    rewrite Hc, IH by assumption. now rewrite <- app_assoc.
Qed.

Lemma split_slash_from_length (s : jstring) :
  forall cur,
    length (Display.split_slash_from s cur)
    = (1 + count_occ N.eq_dec s 47%N)%nat.
Proof.
  induction s as [|c s IH]; intros cur; [reflexivity|].
  cbn [Display.split_slash_from count_occ].
  destruct (N.eqb_spec c 47) as [->|Hc].
  - destruct (N.eq_dec 47 47) as [_|E]; [|congruence].
    cbn [length]. now rewrite IH.
  - destruct (N.eq_dec c 47) as [E|_]; [congruence|]. apply IH.
Qed.

Lemma digit_not_slash (c : char) : isDigit c = true -> (c =? 47)%N = false.
Proof.
  unfold isDigit. intros H. apply andb_true_iff in H as [H _].
  apply N.leb_le in H. apply N.eqb_neq. lia.
Qed.

Lemma digits_noSlash (s : jstring) : forallb isDigit s = true -> noSlash s = true.
Proof.
  unfold noSlash. induction s as [|c s IH]; [reflexivity|]. cbn [forallb].
  intros H. apply andb_true_iff in H as [Hc Hs].
  rewrite (digit_not_slash _ Hc). cbn [negb andb]. now apply IH.
Qed.

Lemma split_slash_ddmmyyyy (d1 d2 m1 m2 y1 y2 y3 y4 : char) :
  forallb isDigit [d1; d2; m1; m2; y1; y2; y3; y4] = true ->
  Display.split_slash (ddmmyyyy d1 d2 m1 m2 y1 y2 y3 y4)
  = [[d1; d2]; [m1; m2]; [y1; y2; y3; y4]].
Proof.
  intros H.
  change [d1; d2; m1; m2; y1; y2; y3; y4]
    with ([d1; d2] ++ [m1; m2] ++ [y1; y2; y3; y4]) in H.
  rewrite !forallb_app in H.
  apply andb_true_iff in H as [Hd H]. apply andb_true_iff in H as [Hm Hy].
  unfold Display.split_slash, ddmmyyyy.
  change [d1; d2; 47; m1; m2; 47; y1; y2; y3; y4]%N
    with ([d1; d2] ++ 47%N :: ([m1; m2] ++ 47%N :: [y1; y2; y3; y4])).
  rewrite !split_slash_from_segment by now apply digits_noSlash.
  rewrite split_slash_from_last by now apply digits_noSlash.
  reflexivity.
Qed.

Lemma parseInt_two_digits (m1 m2 : char) :
  isDigit m1 = true -> isDigit m2 = true ->
  Display.parseInt (@Some jstring [m1; m2])
  = Some (Z.of_N ((m1 - 48) * 10 + (m2 - 48))).
Proof.
  intros H1 H2. unfold Display.parseInt, Display.parseIntString.
  cbn [Display.template]. unfold trimStart. cbn [dropWhile].
  rewrite (digit_not_space _ H1).
  assert (Hlo : (48 <= m1 /\ 48 <= m2)%N).
  { unfold isDigit in H1, H2.
    apply andb_true_iff in H1 as [H1 _]. apply andb_true_iff in H2 as [H2 _].
    apply N.leb_le in H1, H2. now split. }
  assert (E1 : (m1 =? minus_sign)%N = false)
    by (apply N.eqb_neq; unfold minus_sign; lia).
  assert (E2 : (m1 =? plus_sign)%N = false)
    by (apply N.eqb_neq; unfold plus_sign; lia).
  assert (E3 : (m2 =? 120)%N = false).
  { unfold isDigit in H2. apply andb_true_iff in H2 as [_ H2].
    apply N.leb_le in H2. apply N.eqb_neq. lia. }
  assert (E4 : (m2 =? 88)%N = false).
  { unfold isDigit in H2. apply andb_true_iff in H2 as [_ H2].
    apply N.leb_le in H2. apply N.eqb_neq. lia. }
  rewrite E1, E2, E3, E4. cbn [orb]. rewrite andb_false_r.
  cbn [takeWhile]. rewrite H1, H2. cbn [isEmpty].
  unfold digitsValue. cbn [fold_left]. reflexivity.
Qed.

Lemma monthNameAt_in_range (m : N) :
  (1 <= m <= 12)%N ->
  Display.monthNameAt (Some (Z.of_N m - 1)%Z)
  = Some (nth (N.to_nat m - 1) Display.monthNames []).
Proof.
  intros Hm. unfold Display.monthNameAt.
  assert (E : (0 <=? Z.of_N m - 1)%Z = true) by (apply Z.leb_le; lia).
  rewrite E.
  replace (Z.to_nat (Z.of_N m - 1)) with (N.to_nat m - 1)%nat by lia.
  apply nth_error_nth'. cbn. lia.
Qed.

Lemma monthNameAt_out_of_range (m : N) :
  (m = 0 \/ 12 < m)%N -> Display.monthNameAt (Some (Z.of_N m - 1)%Z) = None.
Proof.
  intros Hm. unfold Display.monthNameAt.
  destruct (Z.leb_spec 0 (Z.of_N m - 1)) as [H|H]; [|reflexivity].
  apply nth_error_None. cbn. lia.
Qed.

(** X14. The date labels on a date DD/MM/YYYY.  When the month MM is
    01..12, [formatDateForDisplay] returns the Italian short name of the
    month, a space and the year, and [formatDateLabel] returns the name, a
    dash and the last two digits of the year; when MM is 00 or above 12
    the word undefined stands in for the name.  [formatDateForExport] and
    [formatDateForSlider] (on MM/YYYY) return the same text as
    [formatDateForDisplay]. *)
Theorem X14_date_labels (d1 d2 m1 m2 y1 y2 y3 y4 : char) :
  forallb isDigit [d1; d2; m1; m2; y1; y2; y3; y4] = true ->
  let dateStr := ddmmyyyy d1 d2 m1 m2 y1 y2 y3 y4 in
  let m := ((m1 - 48) * 10 + (m2 - 48))%N in
  let year := [y1; y2; y3; y4] in
  ((1 <= m <= 12)%N ->
   Display.formatDateForDisplay dateStr
   = nth (N.to_nat m - 1) Display.monthNames [] ++ lit " " ++ year
   /\ Display.formatDateLabel dateStr
      = Display.Returns
          (nth (N.to_nat m - 1) Display.monthNames [] ++ lit "-" ++ [y3; y4]))
  /\ ((m = 0 \/ 12 < m)%N ->
      Display.formatDateForDisplay dateStr = lit "undefined " ++ year
      /\ Display.formatDateLabel dateStr
         = Display.Returns (lit "undefined-" ++ [y3; y4]))
  /\ Display.formatDateForExport dateStr = Display.formatDateForDisplay dateStr
  /\ Display.formatDateForSlider ([m1; m2] ++ 47%N :: year)
     = Display.formatDateForDisplay dateStr.
Proof.
  intros H dateStr m year.
  assert (Hsplit := split_slash_ddmmyyyy d1 d2 m1 m2 y1 y2 y3 y4 H).
  assert (Hm : isDigit m1 = true /\ isDigit m2 = true).
  { cbn [forallb] in H. do 2 (apply andb_true_iff in H as [_ H]).
    apply andb_true_iff in H as [Ha H]. apply andb_true_iff in H as [Hb _].
    now split. }
  destruct Hm as [Hm1 Hm2].
  assert (Hy : forallb isDigit [m1; m2] = true
               /\ forallb isDigit year = true).
  { cbn [forallb] in *. rewrite Hm1, Hm2. split; [reflexivity|].
    do 4 (apply andb_true_iff in H as [_ H]). exact H. }
  destruct Hy as [Hmm Hyy].
  assert (Hslider : Display.split_slash ([m1; m2] ++ 47%N :: year)
                    = [[m1; m2]; year]).
  { unfold Display.split_slash.
    rewrite split_slash_from_segment by now apply digits_noSlash.
    now rewrite split_slash_from_last by now apply digits_noSlash. }
  unfold Display.formatDateForDisplay, Display.formatDateLabel,
    Display.formatDateForExport, Display.formatDateForSlider.
  subst dateStr. rewrite Hsplit, Hslider. cbn [nth_error app isEmpty].
  rewrite (parseInt_two_digits m1 m2 Hm1 Hm2). cbn [option_map]. fold m.
  split; [|split; [|split; reflexivity]].
  - intros Hr. rewrite (monthNameAt_in_range m Hr). now split.
  - intros Hr. rewrite (monthNameAt_out_of_range m Hr). now split.
Qed.

Lemma X14_witness :
  Display.formatDateForDisplay (lit "15/03/2024") = lit "mar 2024"
  /\ Display.formatDateLabel (lit "15/03/2024")
     = Display.Returns (lit "mar-24")
  /\ Display.formatDateForDisplay (lit "15/13/2024") = lit "undefined 2024".
Proof.
  pose proof (X14_date_labels 49 53 48 51 50 48 50 52 eq_refl)%N
    as (Hin & _ & _ & _).
  pose proof (X14_date_labels 49 53 49 51 50 48 50 52 eq_refl)%N
    as (_ & Hout & _ & _).
  split; [apply Hin; vm_compute; split; discriminate|].
  split; [apply Hin; vm_compute; split; discriminate|].
  apply Hout. right. reflexivity.
Defined.

(** X15. [formatDateLabel] ends with a TypeError exactly on the dates
    that hold fewer than two slashes (there is no year to slice), while
    [formatDateForDisplay] always returns.  It never does so on the date
    of a record of the Express parser; it does on the date of a record
    the Netlify parser accepts, such as the row abc,1,2,3. *)
Theorem X15_label_throws_without_year (today today' csvText : jstring) :
  (forall s,
      Display.formatDateLabel s = Display.ThrowsTypeError <->
      (count_occ N.eq_dec s 47%N < 2)%nat)
  /\ Forall (fun r => Display.formatDateLabel (date r)
                      <> Display.ThrowsTypeError)
            (data (Express.parseCSVData today today' csvText))
  /\ (exists r, Netlify.row (lit "abc,1,2,3") = Some r
                /\ Display.formatDateLabel (date r) = Display.ThrowsTypeError).
Proof.
  assert (Hiff : forall s,
             Display.formatDateLabel s = Display.ThrowsTypeError <->
             (count_occ N.eq_dec s 47%N < 2)%nat).
  { intros s. unfold Display.formatDateLabel.
    pose proof (split_slash_from_length s []) as Hlen.
    fold (Display.split_slash s) in Hlen.
    destruct (nth_error (Display.split_slash s) 2) as [y|] eqn:E.
    - split; [discriminate|]. intros Hc.
      assert (Hsome : nth_error (Display.split_slash s) 2 <> None)
        by congruence.
      apply nth_error_Some in Hsome. lia.
    - split; [|reflexivity]. intros _.
      apply nth_error_None in E. lia. }
  split; [exact Hiff|]. split.
  - rewrite Express_data. apply Forall_flat_map, Forall_forall.
    intros line _. unfold emitted.
    destruct (Express.row line) as [r|] eqn:E; constructor; trivial.
    destruct (Express_row_date line r E) as [_ Hd].
    apply strictDate_shape in Hd
      as (d1 & d2 & m1 & m2 & y1 & y2 & y3 & y4 & -> & Hd).
    unfold Display.formatDateLabel.
    rewrite (split_slash_ddmmyyyy _ _ _ _ _ _ _ _ Hd). discriminate.
  - eexists. split; reflexivity.
Qed.

Lemma X15_witness :
  Display.formatDateLabel (lit "03/2024") = Display.ThrowsTypeError.
Proof.
  apply (proj1 (X15_label_throws_without_year [] [] [])). vm_compute. lia.
Defined.

(* ================================================================== *)
(** * The filter bar *)
(* ================================================================== *)

Lemma Period_eqb_eq (a b : FilterBar.Period) :
  FilterBar.Period_eqb a b = true <-> a = b.
Proof. destruct a, b; simpl; split; congruence. Qed.

Lemma Period_eqb_refl (a : FilterBar.Period) : FilterBar.Period_eqb a a = true.
Proof. now destruct a. Qed.

Lemma existsb_Period (p : FilterBar.Period) (l : list FilterBar.Period) :
  existsb (FilterBar.Period_eqb p) l = true <-> In p l.
Proof.
  rewrite existsb_exists. split.
  - intros (x & Hx & E). apply Period_eqb_eq in E. now subst.
  - intros H. exists p. split; [assumption | apply Period_eqb_refl].
Qed.

Lemma filter_other_periods (p x : FilterBar.Period) (l : list FilterBar.Period) :
  In x (filter (fun y => negb (FilterBar.Period_eqb y p)) l)
  <-> In x l /\ x <> p.
Proof.
  rewrite filter_In, negb_true_iff. split; intros [H1 H2]; split; trivial.
  - intros ->. now rewrite Period_eqb_refl in H2.
  - destruct (FilterBar.Period_eqb x p) eqn:E; trivial.
    apply Period_eqb_eq in E. contradiction.
Qed.

Lemma Period_dec (a b : FilterBar.Period) : a = b \/ a <> b.
Proof. destruct a, b; (now left) || (right; discriminate). Qed.

Lemma togglePeriod_cases (filters : FilterBar.FilterOptions)
      (p : FilterBar.Period) :
  let P := FilterBar.period filters in
  let P' := FilterBar.period (FilterBar.togglePeriod filters p) in
  (~ In p P /\ P' = P ++ [p])
  \/ (In p P /\ (forall q, In q P -> q = p) /\ P' = [p])
  \/ (In p P /\ (exists q, In q P /\ q <> p)
      /\ (forall x, In x P' <-> In x P /\ x <> p)).
Proof.
  intros P P'. subst P'. unfold FilterBar.togglePeriod.
  cbn [FilterBar.updateFilter FilterBar.period]. fold P.
  destruct (existsb (FilterBar.Period_eqb p) P) eqn:E.
  - apply existsb_Period in E. right.
    destruct (filter (fun y => negb (FilterBar.Period_eqb y p)) P)
      as [|r0 rest] eqn:Er.
    + left. repeat split; trivial. intros q Hq.
      destruct (Period_dec q p) as [Heq|Hne]; trivial.
      assert (Hin : In q []) by (rewrite <- Er; now apply filter_other_periods).
      contradiction.
    + right. split; [exact E|]. split.
      * exists r0. apply (filter_other_periods p r0 P). rewrite Er. now left.
      * intros x. cbn [length Nat.eqb]. rewrite <- Er.
        apply filter_other_periods.
  - left. split; trivial. intros Hin. apply existsb_Period in Hin. congruence.
Qed.

(** X16. Toggling a period in the filter bar never leaves the selection
    empty, resets both dates to the empty string and keeps the commodity.
    A period that was not selected is added at the end; one that was
    selected is removed unless it was the only one.  Toggling the same
    period twice gives back the periods that were selected (as a set),
    provided some period was. *)
Theorem X16_toggle_period (filters : FilterBar.FilterOptions)
        (p : FilterBar.Period) :
  let toggled := FilterBar.togglePeriod filters p in
  FilterBar.period toggled <> []
  /\ FilterBar.startDate toggled = Some []
  /\ FilterBar.endDate toggled = Some []
  /\ FilterBar.type toggled = FilterBar.type filters
  /\ (~ In p (FilterBar.period filters) ->
      FilterBar.period toggled = FilterBar.period filters ++ [p])
  /\ (In p (FilterBar.period filters) ->
      (exists q, In q (FilterBar.period filters) /\ q <> p) ->
      forall x, In x (FilterBar.period toggled) <->
                In x (FilterBar.period filters) /\ x <> p)
  /\ (In p (FilterBar.period filters) ->
      (forall q, In q (FilterBar.period filters) -> q = p) ->
      FilterBar.period toggled = [p])
  /\ (FilterBar.period filters <> [] ->
      forall x, In x (FilterBar.period (FilterBar.togglePeriod toggled p))
                <-> In x (FilterBar.period filters)).
Proof.
  intros toggled.
  pose proof (togglePeriod_cases filters p) as H1.
  pose proof (togglePeriod_cases toggled p) as H2.
  fold toggled in H1. cbv zeta in H1, H2.
  set (P := FilterBar.period filters) in *.
  set (P1 := FilterBar.period toggled) in *.
  set (P2 := FilterBar.period (FilterBar.togglePeriod toggled p)) in *.
  split; [|split; [reflexivity|split; [reflexivity|split; [reflexivity|]]]].
  { destruct H1 as [[_ E]|[(_ & _ & E)|(_ & (q & Hq & Hne) & E)]].
    - rewrite E. destruct P; discriminate.
    - rewrite E. discriminate.
    - intros E0. assert (Hin : In q P1) by (apply E; now split).
      rewrite E0 in Hin. contradiction. }
  split.
  { intros Hn. destruct H1 as [[_ E]|[(Hin & _)|(Hin & _)]];
      [exact E | contradiction | contradiction]. }
  split.
  { intros Hin (q & Hq & Hne).
    destruct H1 as [[Hn _]|[(_ & Hall & _)|(_ & _ & E)]];
      [contradiction | | exact E].
    specialize (Hall q Hq). contradiction. }
  split.
  { intros Hin Hall.
    destruct H1 as [[Hn _]|[(_ & _ & E)|(_ & (q & Hq & Hne) & _)]];
      [contradiction | exact E |].
    specialize (Hall q Hq). contradiction. }
  intros Hne x.
  destruct H1 as [[Hn E1]|[(Hin & Hall & E1)|(Hin & (q & Hq & Hqp) & E1)]].
  - (* p was absent: added, then removed again *)
    assert (Hp1 : In p P1) by (rewrite E1; apply in_or_app; right; now left).
    assert (Hother : exists q, In q P1 /\ q <> p).
    { destruct P as [|q0 rest] eqn:EP; [congruence|]. exists q0. split.
      - rewrite E1. now left.
      - intros ->. apply Hn. now left. }
    destruct H2 as [[Hn2 _]|[(_ & Hall2 & _)|(_ & _ & E2)]];
      [contradiction | |].
    + destruct Hother as (q & Hq & Hqp). specialize (Hall2 q Hq).
      contradiction.
    + rewrite E2, E1. split.
      * intros [Hx Hxp]. apply in_app_or in Hx as [Hx|[Hx|[]]]; trivial.
        congruence.
      * intros Hx. split; [apply in_or_app; now left|].
        intros ->. contradiction.
  - (* p was the only period: kept both times *)
    assert (Hp1 : In p P1) by (rewrite E1; now left).
    destruct H2 as [[Hn2 _]|[(_ & _ & E2)|(_ & (q & Hq & Hqp) & _)]];
      [contradiction | |].
    + rewrite E2. split.
      * intros [<-|[]]. exact Hin.
      * intros Hx. left. symmetry. now apply Hall.
    + rewrite E1 in Hq. destruct Hq as [<-|[]]. congruence.
  - (* p was removed, then added again *)
    assert (Hp1 : ~ In p P1) by (intros Hp; apply E1 in Hp; now destruct Hp).
    destruct H2 as [[_ E2]|[(Hp & _)|(Hp & _)]];
      [| contradiction | contradiction].
    rewrite E2. split.
    + intros Hx. apply in_app_or in Hx as [Hx|[<-|[]]]; trivial.
      now apply E1 in Hx.
    + intros Hx. apply in_or_app.
      destruct (Period_dec x p) as [->|Hxp]; [right; now left|].
      left. apply E1. now split.
Qed.

Lemma X16_witness :
  FilterBar.period
    (FilterBar.togglePeriod
       {| FilterBar.period := [FilterBar.consolidato; FilterBar.forecast];
          FilterBar.type := FilterBar.gasType;
          FilterBar.startDate := Some (lit "01/01/2024");
          FilterBar.endDate := None |}
       FilterBar.consolidato)
  = [FilterBar.forecast]
  /\ FilterBar.period
       (FilterBar.togglePeriod
          {| FilterBar.period := [FilterBar.forecast];
             FilterBar.type := FilterBar.gasType;
             FilterBar.startDate := Some [];
             FilterBar.endDate := Some [] |}
          FilterBar.forecast)
     = [FilterBar.forecast].
Proof.
  split; [reflexivity|].
  apply (proj1 (proj2 (proj2 (proj2 (proj2 (proj2 (proj2
           (X16_toggle_period
              {| FilterBar.period := [FilterBar.forecast];
                 FilterBar.type := FilterBar.gasType;
                 FilterBar.startDate := Some [];
                 FilterBar.endDate := Some [] |}
              FilterBar.forecast)))))))).
  - now left.
  - intros q [<-|[]]. reflexivity.
Defined.

Lemma find_filter (p : jstring -> bool) (l : list jstring) :
  find p l = nth_error (filter p l) 0.
Proof.
  induction l as [|x l IH]; [reflexivity|]. simpl.
  destruct (p x); [reflexivity | exact IH].
Qed.

Lemma filter_rev_list (p : jstring -> bool) (l : list jstring) :
  filter p (rev l) = rev (filter p l).
Proof.
  induction l as [|x l IH]; [reflexivity|]. simpl.
  rewrite filter_app, IH. simpl. destruct (p x); simpl; trivial.
  now rewrite app_nil_r.
Qed.

Lemma nth_error_rev_head (l : list jstring) :
  l <> [] -> nth_error (rev l) 0 = Some (nth (length l - 1) l []).
Proof.
  intros Hne. destruct (exists_last Hne) as (l' & x & ->).
  rewrite rev_app_distr, length_app. simpl.
  replace (length l' + 1 - 1)%nat with (length l') by lia.
  now rewrite nth_middle.
Qed.

(** X17. Choosing a month in the filter bar.  With an empty choice the
    date is reset to the empty string.  Otherwise the date becomes the
    first (for the start date) or the last (for the end date) of the
    available dates whose month and year parts are those of the choice,
    and nothing else changes; when no available date falls in that month
    the filters are left alone. *)
Theorem X17_month_choice (filters : FilterBar.FilterOptions)
        (availableDates : list jstring) (key : FilterBar.DateKey)
        (monthYear : jstring) :
  let month := nth_error (Display.split_slash monthYear) 0 in
  let year := nth_error (Display.split_slash monthYear) 1 in
  let result :=
    FilterBar.handleMonthYearChange filters availableDates key monthYear in
  (monthYear = [] ->
   result = Some (FilterBar.updateFilter filters (FilterBar.setDate key [])))
  /\ (monthYear <> [] ->
      match result with
      | Some changed =>
          exists selected,
            changed
            = FilterBar.updateFilter filters (FilterBar.setDate key selected)
            /\ In selected availableDates
            /\ FilterBar.inMonth month year selected = true
            /\ match key with
               | FilterBar.startDateKey =>
                   find (FilterBar.inMonth month year) availableDates
                   = Some selected
               | FilterBar.endDateKey =>
                   find (FilterBar.inMonth month year) (rev availableDates)
                   = Some selected
               end
      | None =>
          forall d, In d availableDates ->
                    FilterBar.inMonth month year d = false
      end).
Proof.
  intros month year result. subst result.
  unfold FilterBar.handleMonthYearChange. fold month. fold year.
  split; [intros ->; reflexivity|].
  intros Hne. apply isEmpty_false in Hne. rewrite Hne.
  set (inM := FilterBar.inMonth month year).
  destruct (filter inM availableDates) as [|d0 rest] eqn:Ef.
  - cbn [length Nat.ltb Nat.leb]. intros d Hd.
    destruct (inM d) eqn:E; trivial.
    assert (Hin : In d (filter inM availableDates))
      by (apply filter_In; now split).
    rewrite Ef in Hin. contradiction.
  - cbn [length]. change (0 <? S (length rest))%nat with true. cbv iota.
    assert (Hmem : forall x, In x (d0 :: rest) ->
                             In x availableDates /\ inM x = true).
    { intros x Hx. rewrite <- Ef in Hx. now apply filter_In in Hx. }
    destruct key.
    + exists d0. cbn [nth]. split; [reflexivity|].
      destruct (Hmem d0 (or_introl eq_refl)) as [H1 H2].
      repeat split; trivial. now rewrite find_filter, Ef.
    + set (sel := nth (S (length rest) - 1) (d0 :: rest) []).
      exists sel. split; [reflexivity|].
      assert (Hsel : In sel (d0 :: rest)) by (apply nth_In; simpl; lia).
      destruct (Hmem sel Hsel) as [H1 H2].
      repeat split; trivial.
      rewrite find_filter, filter_rev_list, Ef.
      now rewrite nth_error_rev_head by discriminate.
Qed.

Lemma X17_witness :
  let filters :=
    {| FilterBar.period := [FilterBar.consolidato];
       FilterBar.type := FilterBar.powerType;
       FilterBar.startDate := Some []; FilterBar.endDate := Some [] |} in
  let dates := [lit "01/01/2024"; lit "05/02/2024"; lit "20/02/2024";
                lit "01/03/2024"] in
  FilterBar.handleMonthYearChange filters dates FilterBar.endDateKey
    (lit "02/2024")
  = Some {| FilterBar.period := [FilterBar.consolidato];
            FilterBar.type := FilterBar.powerType;
            FilterBar.startDate := Some [];
            FilterBar.endDate := Some (lit "20/02/2024") |}.
Proof.
  intros filters dates.
  pose proof (proj2 (X17_month_choice filters dates FilterBar.endDateKey
                       (lit "02/2024"))) as H.
  cbv zeta in H.
  destruct (FilterBar.handleMonthYearChange filters dates
              FilterBar.endDateKey (lit "02/2024")) as [changed|] eqn:E.
  - destruct (H ltac:(discriminate)) as (selected & -> & _ & _ & Hfind).
    vm_compute in Hfind. injection Hfind as <-. reflexivity.
  - vm_compute in E. discriminate E.
Defined.

(* ================================================================== *)
(** * Invariants of the records *)
(* ================================================================== *)

Lemma trimEnd_keeps_head (c : char) (x : jstring) :
  isWhiteSpace c = false ->
  exists y, trimEnd (c :: x) = c :: y.
Proof.
  intros Hc. unfold trimEnd. cbn [rev].
  destruct (dropWhile_suffix isWhiteSpace (rev x ++ [c])) as [w E].
  assert (Hw : exists w', dropWhile isWhiteSpace (rev x ++ [c]) = w' ++ [c]).
  { revert E. generalize (rev x). intros l. revert w.
    induction l as [|a l IH]; intros w E; cbn [app dropWhile] in *.
    - rewrite Hc. now exists [].
    - destruct (isWhiteSpace a).
      + destruct w as [|b w]; cbn [app] in E.
        * exfalso.
          assert (L : length (a :: l ++ [c])
                      = length (dropWhile isWhiteSpace (l ++ [c])))
            by now rewrite E at 1.
          destruct (dropWhile_suffix isWhiteSpace (l ++ [c])) as [w2 E2].
          rewrite E2 in L at 1. cbn [length] in L.
          rewrite length_app in L. lia.
        * injection E as _ E. now apply (IH w).
      + now exists (a :: l). }
  destruct Hw as [w' ->]. rewrite rev_app_distr. cbn. now exists (rev w').
Qed.

Lemma trimStart_head (s : jstring) :
  trimStart s = []
  \/ exists c x, trimStart s = c :: x /\ isWhiteSpace c = false.
Proof.
  unfold trimStart. induction s as [|a s IH]; [now left|].
  cbn [dropWhile]. destruct (isWhiteSpace a) eqn:Ea; [exact IH|].
  right. now exists a, s.
Qed.

Lemma trimEnd_idempotent (s : jstring) : trimEnd (trimEnd s) = trimEnd s.
Proof. unfold trimEnd. now rewrite rev_involutive, dropWhile_idem. Qed.

Lemma trim_idempotent (s : jstring) : trim (trim s) = trim s.
Proof.
  unfold trim.
  destruct (trimStart_head s) as [E|(c & x & E & Hc)]; rewrite E.
  - reflexivity.
  - destruct (trimEnd_keeps_head c x Hc) as [y Ey].
    rewrite Ey. unfold trimStart. cbn [dropWhile]. rewrite Hc.
    rewrite <- Ey. apply trimEnd_idempotent.
Qed.

Lemma trim_noQuote (s : jstring) : noQuote s = true -> noQuote (trim s) = true.
Proof.
  intros H. unfold trim, trimEnd, trimStart, noQuote in *.
  rewrite forallb_rev. apply dropWhile_forallb. rewrite forallb_rev.
  now apply dropWhile_forallb.
Qed.

Lemma Netlify_row_record (line : jstring) (r : EnergyData) :
  Netlify.row line = Some r ->
  trim (date r) = date r /\ noQuote (date r) = true
  /\ isNaN (gas r) = false /\ isNaN (power r) = false.
Proof.
  unfold Netlify.row.
  destruct (isEmpty (trim line)); [discriminate|].
  destruct (_ || _); [discriminate|].
  cbv zeta. intros H. injection H as <-. cbn [date gas power].
  split; [apply trim_idempotent|].
  split; [|split; apply parseNumber_not_NaN].
  apply trim_noQuote. rewrite parseCSVLine_variants_agree.
  apply field_noQuote.
Qed.

Lemma flat_map_emitted_length (row : jstring -> option EnergyData)
      (lines : list jstring) :
  (length (flat_map (emitted row) lines) <= length lines)%nat.
Proof.
  induction lines as [|l lines IH]; [reflexivity|].
  cbn [flat_map]. rewrite length_app. unfold emitted at 1.
  destruct (row l); cbn [length]; lia.
Qed.

(** X18. What the records of a snapshot always satisfy.  Neither parser
    ever returns NaN as gas or power, and neither returns more records
    than the text has lines (the Netlify parser: than it has lines after
    the sixth).  The date of a Netlify record is trimmed and holds no
    quote. *)
Theorem X18_record_invariants (today today' csvText : jstring) :
  Forall (fun r => isNaN (gas r) = false /\ isNaN (power r) = false
                   /\ trim (date r) = date r /\ noQuote (date r) = true)
         (data (Netlify.parseCSVData today csvText))
  /\ Forall (fun r => isNaN (gas r) = false /\ isNaN (power r) = false)
            (data (Express.parseCSVData today today' csvText))
  /\ (length (data (Netlify.parseCSVData today csvText))
      <= length (textLines csvText) - 6)%nat
  /\ (length (data (Express.parseCSVData today today' csvText))
      <= length (textLines csvText))%nat.
Proof.
  rewrite Netlify_data, Express_data. split; [|split; [|split]].
  - apply Forall_flat_map, Forall_forall. intros line _. unfold emitted.
    destruct (Netlify.row line) as [r|] eqn:E; constructor; trivial.
    destruct (Netlify_row_record line r E) as (H1 & H2 & H3 & H4).
    now repeat split.
  - apply Forall_flat_map, Forall_forall. intros line _. unfold emitted.
    destruct (Express.row line) as [r|] eqn:E; constructor; trivial.
    now apply (Express_row_numbers line).
  - pose proof (flat_map_emitted_length Netlify.row
                  (skipn 6 (textLines csvText))) as H.
    rewrite length_skipn in H. exact H.
  - apply flat_map_emitted_length.
Qed.
